(** * Mooring dashboard service: a shallow embedding of [src/app.py]

    The Flask application keeps one global, [port_worker], and answers
    every request by reading or replacing it.  The handlers are embedded
    below as functions from the held worker (and whatever the environment
    supplies: the outcome of the generator call, the clock) to a response
    and the worker held afterwards.

    Numbers.  Python integers are [Z].  Sensor readings (tension, radar
    distance) are finite numbers and are embedded as rationals [Q]: every
    finite float is a rational and the comparisons against the integer
    thresholds 40, 69, 70, 85 and 86 are exact.  Sums of readings are the
    exact rational sums (float rounding is not modelled). *)

From Stdlib Require Import List String ZArith QArith Qminmax Bool Lia.
From Stdlib Require Import Permutation Sorted Lqa.
Import ListNotations.

Local Open Scope string_scope.
Local Open Scope Z_scope.

(** ** Data model: the records read off [port_worker.data] *)

Module Model.

Inductive DistanceStatus : Type := ACTIVE | INACTIVE.

Record HookData : Type := mkHook {
  hook_name : string;
  tension : option Q;
  faulted : bool;
  attached_line : bool
}.

Record BollardData : Type := mkBollard {
  bollard_name : string;
  hooks : list HookData
}.

Record RadarData : Type := mkRadar {
  radar_name : string;
  ship_distance : Q;
  distance_change : Q;
  distance_status : DistanceStatus
}.

Record ShipData : Type := mkShip {
  ship_name : string;
  vessel_id : string
}.

Record BerthData : Type := mkBerth {
  berth_name : string;
  bollard_count : Z;
  hook_count : Z;
  ship : option ShipData;
  radars : list RadarData;
  bollards : list BollardData
}.

Record PortData : Type := mkPort {
  port_name : string;
  berths : list BerthData
}.

(** The worker object; [port_worker.data] is its only attribute the
    application reads. *)
Record PortWorker : Type := mkWorker {
  data : PortData
}.

Definition status_eqb (a b : DistanceStatus) : bool :=
  match a, b with
  | ACTIVE, ACTIVE | INACTIVE, INACTIVE => true
  | _, _ => false
  end.

End Model.
Import Model.

(** ** JSON values: what the handlers pass to [jsonify] *)

Module Json.

#[warnings="-register-all"]
Inductive json : Type :=
| JNull
| JBool (b : bool)
| JInt (z : Z)
| JNum (q : Q)
| JStr (s : string)
| JArr (items : list json)
| JObj (fields : list (string * json)).

Fixpoint lookup (k : string) (fields : list (string * json)) : option json :=
  match fields with
  | [] => None
  | (k', v) :: rest => if String.eqb k k' then Some v else lookup k rest
  end.

(** [obj[k]] on a value. *)
Definition field (k : string) (v : json) : option json :=
  match v with
  | JObj fields => lookup k fields
  | _ => None
  end.

Definition opt_num (t : option Q) : json :=
  match t with
  | Some q => JNum q
  | None => JNull
  end.

Record Response : Type := mkResponse {
  status : Z;
  body : json
}.

(** [return jsonify(d)] and [return jsonify(d), code]. *)
Definition ok (d : json) : Response := mkResponse 200 d.
Definition error (code : Z) (msg : string) : Response :=
  mkResponse code (JObj [("error", JStr msg)]).

End Json.
Import Json.

(** ** Python's [sum] over a generator *)

Definition py_sum_Z (l : list Z) : Z := fold_left Z.add l 0.
Definition py_sum_Q (l : list Q) : Q := fold_left Qplus l (0%Q).

(** ** The analysis view: per-bollard metrics ([get_tension_analysis]) *)

Module Analysis.

(** [hooks_data]: each hook paired with its tension. *)
Definition hooks_data (b : list HookData) : list (HookData * option Q) :=
  map (fun hook => (hook, match tension hook with
                          | Some t => Some t
                          | None => None
                          end)) b.

(** The four conditions of the generator expressions, in the order the
    source writes them. *)
Definition is_critical (ht : HookData * option Q) : bool :=
  let '(hook, tn) := ht in
  negb (faulted hook) &&
  match tn with
  | Some t => Qle_bool 86 t
  | None => false
  end.

Definition is_dangerous (ht : HookData * option Q) : bool :=
  let '(hook, tn) := ht in
  negb (faulted hook) &&
  match tn with
  | Some t => Qle_bool 70 t && Qle_bool t 85
  | None => false
  end.

Definition is_attention (ht : HookData * option Q) : bool :=
  let '(hook, tn) := ht in
  negb (faulted hook) &&
  match tn with
  | Some t => Qle_bool 40 t && Qle_bool t 69
  | None => false
  end.

Definition is_faulted (ht : HookData * option Q) : bool :=
  let '(hook, _) := ht in faulted hook.

(** [sum(1 for hook, tension in hooks_data if cond)]. *)
Definition count_if (cond : HookData * option Q -> bool)
    (hd : list (HookData * option Q)) : Z :=
  py_sum_Z (map (fun _ => 1) (filter cond hd)).

Definition critical_count (b : list HookData) : Z :=
  count_if is_critical (hooks_data b).
Definition dangerous_count (b : list HookData) : Z :=
  count_if is_dangerous (hooks_data b).
Definition attention_count (b : list HookData) : Z :=
  count_if is_attention (hooks_data b).
Definition faulted_count (b : list HookData) : Z :=
  count_if is_faulted (hooks_data b).

(** [sum(tension for hook, tension in hooks_data if tension is not None)]. *)
Definition tensions (hd : list (HookData * option Q)) : list Q :=
  flat_map (fun ht => match snd ht with
                      | Some t => [t]
                      | None => []
                      end) hd.

Definition total_tension (b : list HookData) : Q :=
  py_sum_Q (tensions (hooks_data b)).

End Analysis.

(** ** Python's [list.sort(key=..., reverse=True)]

    CPython compares keys with [<] only and sorts stably; with
    [reverse=True] it reverses the list, sorts, and reverses again, so
    that equal keys keep their original order.  The stable sort itself is
    embedded as a left-to-right insertion sort, which computes the same
    list as any other stable sort by [<]. *)

Module PySort.

Section Sort.
Context {A K : Type}.
Variable key : A -> K.
Variable lt : K -> K -> bool.

(** Insert [x] behind every element that is not greater than it. *)
Fixpoint insert (x : A) (l : list A) : list A :=
  match l with
  | [] => [x]
  | y :: l' => if lt (key x) (key y) then x :: y :: l' else y :: insert x l'
  end.

Definition sort (l : list A) : list A :=
  fold_left (fun acc x => insert x acc) l [].

(** [x] may stand before [y] in ascending order: [y] is not less than [x]. *)
Definition ascending (x y : A) : Prop := lt (key y) (key x) = false.

Definition sort_reverse (l : list A) : list A :=
  rev (sort (rev l)).

End Sort.

End PySort.

(** ** The sort key of the analysis view and Python's tuple comparison *)

Module Priority.

Record BollardInfo : Type := mkInfo {
  info_berth_name : string;
  info_bollard_name : string;
  info_ship_name : string;
  info_vessel_id : string;
  info_critical_count : Z;
  info_dangerous_count : Z;
  info_attention_count : Z;
  info_faulted_count : Z;
  info_total_tension : Q;
  info_hooks : list (HookData * option Q)
}.

Definition Key : Type := (Z * Z * Q)%type.

(** [lambda x: (x["critical_count"], x["faulted_count"], x["total_tension"])]. *)
Definition sort_key (x : BollardInfo) : Key :=
  (info_critical_count x, info_faulted_count x, info_total_tension x).

Definition Qlt_bool (a b : Q) : bool := negb (Qle_bool b a).

(** Tuple [<]: the first position where the two tuples differ (by [==])
    decides; equal tuples are not less. *)
Definition key_lt (a b : Key) : bool :=
  let '(c1, f1, t1) := a in
  let '(c2, f2, t2) := b in
  if negb (c1 =? c2) then c1 <? c2
  else if negb (f1 =? f2) then f1 <? f2
  else if negb (Qeq_bool t1 t2) then Qlt_bool t1 t2
  else false.

(** The strict order that tuple [<] decides. *)
Definition key_less (a b : Key) : Prop :=
  let '(c1, f1, t1) := a in
  let '(c2, f2, t2) := b in
  c1 < c2 \/ (c1 = c2 /\ (f1 < f2 \/ (f1 = f2 /\ (t1 < t2)%Q))).

(** Lexicographic greater-or-equal on keys. *)
Definition key_ge (a b : Key) : Prop :=
  let '(c1, f1, t1) := a in
  let '(c2, f2, t2) := b in
  c1 > c2 \/ (c1 = c2 /\ (f1 > f2 \/ (f1 = f2 /\ (t2 <= t1)%Q))).

Definition bollard_info (berth : BerthData) (bollard : BollardData) : BollardInfo :=
  let hd := Analysis.hooks_data (hooks bollard) in
  {| info_berth_name := berth_name berth;
     info_bollard_name := bollard_name bollard;
     info_ship_name := match ship berth with
                       | Some s => ship_name s
                       | None => "No Ship"
                       end;
     info_vessel_id := match ship berth with
                       | Some s => vessel_id s
                       | None => "N/A"
                       end;
     info_critical_count := Analysis.critical_count (hooks bollard);
     info_dangerous_count := Analysis.dangerous_count (hooks bollard);
     info_attention_count := Analysis.attention_count (hooks bollard);
     info_faulted_count := Analysis.faulted_count (hooks bollard);
     info_total_tension := Analysis.total_tension (hooks bollard);
     info_hooks := hd |}.

(** The two nested loops that fill [all_bollards]. *)
Definition collect (d : PortData) : list BollardInfo :=
  flat_map (fun berth => map (bollard_info berth) (bollards berth)) (berths d).

Definition prioritized (d : PortData) : list BollardInfo :=
  PySort.sort_reverse sort_key key_lt (collect d).

End Priority.

(** ** The dictionaries the handlers build *)

Module Views.

Definition status_str (s : DistanceStatus) : string :=
  match s with
  | ACTIVE => "ACTIVE"
  | INACTIVE => "INACTIVE"
  end.

Definition jlen {A : Type} (l : list A) : json := JInt (Z.of_nat (List.length l)).

Definition ship_json (s : option ShipData) : json :=
  match s with
  | Some sh => JObj [("name", JStr (ship_name sh));
                     ("vessel_id", JStr (vessel_id sh))]
  | None => JNull
  end.

Definition hook_json (hook : HookData) : json :=
  JObj [("name", JStr (hook_name hook));
        ("tension", opt_num (match tension hook with
                             | Some t => Some t
                             | None => None
                             end));
        ("faulted", JBool (faulted hook));
        ("attached_line", JBool (attached_line hook))].

Definition bollard_json (bollard : BollardData) : json :=
  JObj [("name", JStr (bollard_name bollard));
        ("hooks", JArr (map hook_json (hooks bollard)))].

Definition radar_json (radar : RadarData) : json :=
  JObj [("name", JStr (radar_name radar));
        ("ship_distance", JNum (ship_distance radar));
        ("distance_change", JNum (distance_change radar));
        ("status", JStr (status_str (distance_status radar)))].

(** The per-berth dictionary shared by the berth listing, the berth
    lookup and the download. *)
Definition berth_json (berth : BerthData) : json :=
  JObj [("name", JStr (berth_name berth));
        ("bollard_count", JInt (bollard_count berth));
        ("hook_count", JInt (hook_count berth));
        ("ship", ship_json (ship berth));
        ("radars", JArr (map radar_json (radars berth)));
        ("bollards", JArr (map bollard_json (bollards berth)))].

(** The shorter per-berth dictionary of [get_port]. *)
Definition berth_summary_json (berth : BerthData) : json :=
  JObj [("name", JStr (berth_name berth));
        ("bollard_count", JInt (bollard_count berth));
        ("hook_count", JInt (hook_count berth));
        ("ship", ship_json (ship berth));
        ("active_radars",
         jlen (filter (fun r => status_eqb (distance_status r) ACTIVE)
                      (radars berth)));
        ("total_radars", jlen (radars berth))].

Definition analysis_hook_json (ht : HookData * option Q) : json :=
  let '(hook, tn) := ht in
  JObj [("name", JStr (hook_name hook));
        ("tension", opt_num tn);
        ("faulted", JBool (faulted hook));
        ("attached_line", JBool (attached_line hook))].

Definition bollard_info_json (x : Priority.BollardInfo) : json :=
  JObj [("berth_name", JStr (Priority.info_berth_name x));
        ("bollard_name", JStr (Priority.info_bollard_name x));
        ("ship_name", JStr (Priority.info_ship_name x));
        ("vessel_id", JStr (Priority.info_vessel_id x));
        ("critical_count", JInt (Priority.info_critical_count x));
        ("dangerous_count", JInt (Priority.info_dangerous_count x));
        ("attention_count", JInt (Priority.info_attention_count x));
        ("faulted_count", JInt (Priority.info_faulted_count x));
        ("total_tension", JNum (Priority.info_total_tension x));
        ("hooks", JArr (map analysis_hook_json (Priority.info_hooks x)))].

End Views.

(** ** The statistics loop ([get_statistics]) *)

Module Statistics.

Record Counters : Type := mkCounters {
  active_hooks : Z;
  faulted_hooks : Z;
  total_tension : Q
}.

Definition zero : Counters := mkCounters 0 0 0%Q.

(** One iteration of the innermost loop body: three independent [if]s. *)
Definition visit_hook (c : Counters) (hook : HookData) : Counters :=
  let c1 := if attached_line hook
            then mkCounters (active_hooks c + 1) (faulted_hooks c) (total_tension c)
            else c in
  let c2 := if faulted hook
            then mkCounters (active_hooks c1) (faulted_hooks c1 + 1) (total_tension c1)
            else c1 in
  match tension hook with
  | Some t => mkCounters (active_hooks c2) (faulted_hooks c2) (total_tension c2 + t)%Q
  | None => c2
  end.

Definition visit_bollard (c : Counters) (bollard : BollardData) : Counters :=
  fold_left visit_hook (hooks bollard) c.

Definition visit_berth (c : Counters) (berth : BerthData) : Counters :=
  fold_left visit_bollard (bollards berth) c.

Definition tally (d : PortData) : Counters :=
  fold_left visit_berth (berths d) zero.

Definition total_bollards (d : PortData) : Z :=
  py_sum_Z (map bollard_count (berths d)).

Definition total_hooks (d : PortData) : Z :=
  py_sum_Z (map hook_count (berths d)).

Definition ships_docked (d : PortData) : Z :=
  py_sum_Z (map (fun _ => 1)
                (filter (fun berth => match ship berth with
                                      | Some _ => true
                                      | None => false
                                      end) (berths d))).

End Statistics.

(** ** The request handlers

    The state of the service is the global [port_worker]: [None] until a
    generation succeeds.  What a handler obtains from outside the file is
    an argument: the outcome of the [try] body of [get_port], the effect
    of [port_worker.update()], the clock reading of the download, and
    [str] on the port data. *)

Module App.

(** [if not port_worker] tests the global for [None]; a worker object is
    true. *)
Definition State : Type := option PortWorker.

(** [port_worker = None] at import time. *)
Definition initial : State := None.

(** Outcome of [reset_generator_state(); build_random_port()] inside the
    [try]: an exception with its [str(e)], or the worker returned. *)
Inductive BuildOutcome : Type :=
| Raised (msg : string)
| Built (w : PortWorker).

Definition no_port_call_first : string :=
  "No port data available. Call /api/port first".
Definition no_port_generate_first : string :=
  "No port data available. Generate port data first".

Section Handlers.

(** [str(port_worker.data)], the model class's own rendering. *)
Variable data_str : PortData -> string.

Definition get_port (o : BuildOutcome) (st : State) : Response * State :=
  match o with
  | Raised msg => (error 500 ("Failed to generate port: " ++ msg), st)
  | Built w =>
      let port_data := data w in
      (ok (JObj [("port_name", JStr (port_name port_data));
                 ("total_berths", Views.jlen (berths port_data));
                 ("berths", JArr (map Views.berth_summary_json
                                      (berths port_data)))]),
       Some w)
  end.

Definition get_berths (st : State) : Response * State :=
  match st with
  | None => (error 404 no_port_call_first, st)
  | Some w =>
      let port_data := data w in
      (ok (JObj [("port_name", JStr (port_name port_data));
                 ("berths", JArr (map Views.berth_json (berths port_data)))]),
       st)
  end.

Definition get_berth (name : string) (st : State) : Response * State :=
  match st with
  | None => (error 404 no_port_call_first, st)
  | Some w =>
      let port_data := data w in
      match find (fun b => String.eqb (berth_name b) name) (berths port_data) with
      | None => (error 404 ("Berth '" ++ name ++ "' not found"), st)
      | Some berth => (ok (Views.berth_json berth), st)
      end
  end.

Definition update_port (update : PortWorker -> PortWorker) (st : State)
    : Response * State :=
  match st with
  | None => (error 404 no_port_call_first, st)
  | Some w =>
      let w' := update w in
      (ok (JObj [("message", JStr "Port data updated successfully");
                 ("port_name", JStr (port_name (data w')))]),
       Some w')
  end.

Definition get_raw_port (st : State) : Response * State :=
  match st with
  | None => (error 404 no_port_call_first, st)
  | Some w => (ok (JObj [("raw_data", JStr (data_str (data w)))]), st)
  end.

Definition get_statistics (st : State) : Response * State :=
  match st with
  | None => (error 404 no_port_call_first, st)
  | Some w =>
      let port_data := data w in
      let c := Statistics.tally port_data in
      (ok (JObj [("port_name", JStr (port_name port_data));
                 ("total_berths", Views.jlen (berths port_data));
                 ("total_bollards", JInt (Statistics.total_bollards port_data));
                 ("total_hooks", JInt (Statistics.total_hooks port_data));
                 ("active_hooks", JInt (Statistics.active_hooks c));
                 ("faulted_hooks", JInt (Statistics.faulted_hooks c));
                 ("total_tension", JNum (Statistics.total_tension c));
                 ("ships_docked", JInt (Statistics.ships_docked port_data))]),
       st)
  end.

Definition get_tension_analysis (st : State) : Response * State :=
  match st with
  | None => (error 404 no_port_generate_first, st)
  | Some w =>
      let port_data := data w in
      let all_bollards := Priority.prioritized port_data in
      (ok (JObj [("port_name", JStr (port_name port_data));
                 ("total_bollards", Views.jlen all_bollards);
                 ("bollards", JArr (map Views.bollard_info_json all_bollards))]),
       st)
  end.

(** [now] is [datetime.now().isoformat()], read while the request is
    served. *)
Definition download_port_data (now : string) (st : State) : Response * State :=
  match st with
  | None => (error 404 no_port_generate_first, st)
  | Some w =>
      let port_data := data w in
      (ok (JObj [("timestamp", JStr now);
                 ("port_name", JStr (port_name port_data));
                 ("total_berths", Views.jlen (berths port_data));
                 ("berths", JArr (map Views.berth_json (berths port_data)))]),
       st)
  end.

(** The routes that touch [port_worker]. *)
Inductive Request : Type :=
| GetPort (o : BuildOutcome)
| GetBerths
| GetBerth (name : string)
| UpdatePort (update : PortWorker -> PortWorker)
| GetRawPort
| GetStatistics
| GetTensionAnalysis
| DownloadPortData (now : string).

Definition handle (r : Request) (st : State) : Response * State :=
  match r with
  | GetPort o => get_port o st
  | GetBerths => get_berths st
  | GetBerth name => get_berth name st
  | UpdatePort update => update_port update st
  | GetRawPort => get_raw_port st
  | GetStatistics => get_statistics st
  | GetTensionAnalysis => get_tension_analysis st
  | DownloadPortData now => download_port_data now st
  end.

(** The worker held after a sequence of requests, served one at a time. *)
Definition run (rs : list Request) (st : State) : State :=
  fold_left (fun s r => snd (handle r s)) rs st.

(** Every route but the generating one needs a port to exist. *)
Definition requires_state (r : Request) : bool :=
  match r with
  | GetPort _ => false
  | _ => true
  end.

(** A request that is not a generation that succeeded. *)
Definition not_generated (r : Request) : bool :=
  match r with
  | GetPort (Built _) => false
  | _ => true
  end.

(** The message of the guard that opens the handler of [r]. *)
Definition no_state_message (r : Request) : string :=
  match r with
  | GetTensionAnalysis | DownloadPortData _ => no_port_generate_first
  | _ => no_port_call_first
  end.

End Handlers.

End App.

(** ** Reading a snapshot back

    These readers are not part of the application.  They recover the
    port records from the dictionary of the download, and serve to state
    that the snapshot carries the whole tree. *)

Module Reader.

Definition bind {A B : Type} (o : option A) (f : A -> option B) : option B :=
  match o with
  | Some a => f a
  | None => None
  end.

Notation "x <- a ;; b" := (bind a (fun x => b))
  (at level 61, a at next level, right associativity).

Definition as_str (v : json) : option string :=
  match v with JStr s => Some s | _ => None end.
Definition as_int (v : json) : option Z :=
  match v with JInt z => Some z | _ => None end.
Definition as_num (v : json) : option Q :=
  match v with JNum q => Some q | _ => None end.
Definition as_bool (v : json) : option bool :=
  match v with JBool b => Some b | _ => None end.
Definition as_arr (v : json) : option (list json) :=
  match v with JArr l => Some l | _ => None end.
Definition as_opt_num (v : json) : option (option Q) :=
  match v with
  | JNull => Some None
  | JNum q => Some (Some q)
  | _ => None
  end.

Fixpoint traverse {A : Type} (f : json -> option A) (l : list json)
    : option (list A) :=
  match l with
  | [] => Some []
  | v :: rest =>
      a <- f v ;;
      r <- traverse f rest ;;
      Some (a :: r)
  end.

Definition status_of_str (s : string) : option DistanceStatus :=
  if String.eqb s "ACTIVE" then Some ACTIVE
  else if String.eqb s "INACTIVE" then Some INACTIVE
  else None.

Definition hook_of (v : json) : option HookData :=
  n <- bind (field "name" v) as_str ;;
  t <- bind (field "tension" v) as_opt_num ;;
  f <- bind (field "faulted" v) as_bool ;;
  a <- bind (field "attached_line" v) as_bool ;;
  Some (mkHook n t f a).

Definition bollard_of (v : json) : option BollardData :=
  n <- bind (field "name" v) as_str ;;
  hs <- bind (bind (field "hooks" v) as_arr) (traverse hook_of) ;;
  Some (mkBollard n hs).

Definition radar_of (v : json) : option RadarData :=
  n <- bind (field "name" v) as_str ;;
  d <- bind (field "ship_distance" v) as_num ;;
  c <- bind (field "distance_change" v) as_num ;;
  s <- bind (bind (field "status" v) as_str) status_of_str ;;
  Some (mkRadar n d c s).

Definition ship_of (v : json) : option (option ShipData) :=
  match v with
  | JNull => Some None
  | _ =>
      n <- bind (field "name" v) as_str ;;
      i <- bind (field "vessel_id" v) as_str ;;
      Some (Some (mkShip n i))
  end.

Definition berth_of (v : json) : option BerthData :=
  n <- bind (field "name" v) as_str ;;
  bc <- bind (field "bollard_count" v) as_int ;;
  hc <- bind (field "hook_count" v) as_int ;;
  s <- bind (field "ship" v) ship_of ;;
  rs <- bind (bind (field "radars" v) as_arr) (traverse radar_of) ;;
  bs <- bind (bind (field "bollards" v) as_arr) (traverse bollard_of) ;;
  Some (mkBerth n bc hc s rs bs).

Definition port_of (v : json) : option PortData :=
  n <- bind (field "port_name" v) as_str ;;
  bs <- bind (bind (field "berths" v) as_arr) (traverse berth_of) ;;
  Some (mkPort n bs).

End Reader.

(** ** The generator and the update engine

    [build_random_port] and [PortWorker.update] belong to the package
    [mooring_data_generator], which [app.py] imports and which is not
    part of the sources at hand.  They are modelled from sections 4.1 to
    4.4 of the specification.  Every random choice is an input: a plan
    for the generation, a stream of draws for an update. *)

Module Engine.

Definition clamp (lo hi x : Q) : Q := Qmax lo (Qmin hi x).

(** A tension reading drawn from the range [0, 100]. *)
Definition tension_in_range (x : Q) : Q := clamp 0 100 x.

Record Config : Type := mkConfig {
  proximity_threshold : Q;
  docking_min : Q;
  docking_max : Q;
  neutral_distance : Q
}.

Definition status_of (cfg : Config) (d : Q) : DistanceStatus :=
  if Qle_bool d (proximity_threshold cfg) then ACTIVE else INACTIVE.

(** *** Update engine (section 4.4) *)

(** What one leaf draws from the random source in one tick. *)
Record Draw : Type := mkDraw {
  walk : Q;
  fault_event : bool;
  detach_event : bool;
  reattach_event : bool;
  fresh_tension : Q;
  distance_step : Q
}.

Definition Source : Type := nat -> Draw.

(** Modelled from the spec: the per-hook rule of the update engine, which
    is absent from the sources.  An attached hook walks its tension by
    the drawn step, clamped to [0, 100]; it may become faulted (never the
    reverse); it may detach, and then the tension becomes null.  A
    detached hook may re-attach with a fresh tension. *)
Definition update_hook (dr : Draw) (h : HookData) : HookData :=
  if attached_line h then
    let f := faulted h || fault_event dr in
    if detach_event dr then mkHook (hook_name h) None f false
    else mkHook (hook_name h)
                (option_map (fun t => clamp 0 100 (t + walk dr)%Q) (tension h))
                f true
  else if reattach_event dr then
    mkHook (hook_name h) (Some (tension_in_range (fresh_tension dr)))
           (faulted h) true
  else h.

(** Modelled from the spec: the per-radar rule of the update engine,
    which is absent from the sources.  With a ship at the berth the drawn
    signed change is applied to the distance, clamped at 0, and the status
    is recomputed; without a ship the radar is left as it is. *)
Definition update_radar (cfg : Config) (has_ship : bool) (dr : Draw)
    (r : RadarData) : RadarData :=
  if has_ship then
    let d := Qmax 0 (ship_distance r + distance_step dr)%Q in
    mkRadar (radar_name r) d (distance_step dr) (status_of cfg d)
  else r.

(** A pass over a list that hands the cursor of the random source from
    one element to the next. *)
Fixpoint map_st {A B : Type} (f : A -> nat -> B * nat) (l : list A) (n : nat)
    : list B * nat :=
  match l with
  | [] => ([], n)
  | x :: rest =>
      let '(y, n1) := f x n in
      let '(ys, n2) := map_st f rest n1 in
      (y :: ys, n2)
  end.

Section Update.
Variable cfg : Config.
Variable src : Source.

Definition update_bollard (b : BollardData) (n : nat) : BollardData * nat :=
  let '(hs, n') := map_st (fun h k => (update_hook (src k) h, S k)) (hooks b) n in
  (mkBollard (bollard_name b) hs, n').

Definition update_berth (berth : BerthData) (n : nat) : BerthData * nat :=
  let has_ship := match ship berth with Some _ => true | None => false end in
  let '(bs, n1) := map_st update_bollard (bollards berth) n in
  let '(rs, n2) :=
    map_st (fun r k => (update_radar cfg has_ship (src k) r, S k))
           (radars berth) n1 in
  (mkBerth (berth_name berth) (bollard_count berth) (hook_count berth)
           (ship berth) rs bs, n2).

(** Modelled from the spec: [PortWorker.update], absent from the sources:
    one tick over every hook and every radar of the held port. *)
Definition update_data (d : PortData) : PortData :=
  mkPort (port_name d) (fst (map_st update_berth (berths d) 0%nat)).

Definition update (w : PortWorker) : PortWorker :=
  mkWorker (update_data (data w)).

End Update.

(** *** Name pool (section 4.1) *)

Inductive GenError : Type := NamesExhausted.

Inductive Result (A : Type) : Type :=
| Failed (e : GenError)
| Done (a : A).
Arguments Failed {A} e.
Arguments Done {A} a.

Record Pools : Type := mkPools {
  ship_names : list string;
  vessel_ids : list string;
  berth_names : list string;
  bollard_names : list string;
  hook_names : list string
}.

(** A step of the builder: it consumes names and may run out of them. *)
Definition Gen (A : Type) : Type := Pools -> Result (A * Pools).

Definition ret {A : Type} (a : A) : Gen A := fun p => Done (a, p).

Definition bind {A B : Type} (m : Gen A) (f : A -> Gen B) : Gen B :=
  fun p => match m p with
           | Failed e => Failed e
           | Done (a, p') => f a p'
           end.

Notation "x <-- m ;; k" := (bind m (fun x => k))
  (at level 61, m at next level, right associativity).

Fixpoint for_each {A B : Type} (f : A -> Gen B) (l : list A) : Gen (list B) :=
  match l with
  | [] => ret []
  | x :: rest =>
      y <-- f x ;;
      ys <-- for_each f rest ;;
      ret (y :: ys)
  end.

Inductive Category : Type := CShip | CVessel | CBerth | CBollard | CHook.

Definition pool_of (c : Category) (p : Pools) : list string :=
  match c with
  | CShip => ship_names p
  | CVessel => vessel_ids p
  | CBerth => berth_names p
  | CBollard => bollard_names p
  | CHook => hook_names p
  end.

Definition with_pool (c : Category) (l : list string) (p : Pools) : Pools :=
  match c with
  | CShip => mkPools l (vessel_ids p) (berth_names p) (bollard_names p) (hook_names p)
  | CVessel => mkPools (ship_names p) l (berth_names p) (bollard_names p) (hook_names p)
  | CBerth => mkPools (ship_names p) (vessel_ids p) l (bollard_names p) (hook_names p)
  | CBollard => mkPools (ship_names p) (vessel_ids p) (berth_names p) l (hook_names p)
  | CHook => mkPools (ship_names p) (vessel_ids p) (berth_names p) (bollard_names p) l
  end.

(** Modelled from the spec: [nextName] of the name pool, absent from the
    sources.  A name is handed out once; an empty pool is the failure
    [NamesExhausted]. *)
Definition next_name (c : Category) : Gen string :=
  fun p => match pool_of c p with
           | [] => Failed NamesExhausted
           | name :: rest => Done (name, with_pool c rest p)
           end.

(** *** Reading generator and topology builder (sections 4.2 and 4.3) *)

(** What a faulted hook reports at creation: the specification leaves the
    choice open, so both policies are modelled. *)
Inductive FaultPolicy : Type := KeepStale | SetNull.

Record HookPlan : Type := mkHookPlan {
  plan_attached : bool;
  plan_tension : Q;
  plan_faulted : bool
}.

Record RadarPlan : Type := mkRadarPlan {
  plan_radar_name : string;
  plan_distance : Q
}.

Record BerthPlan : Type := mkBerthPlan {
  plan_ship : bool;
  plan_radars : list RadarPlan;
  plan_bollards : list (list HookPlan)
}.

Record PortPlan : Type := mkPortPlan {
  plan_port_name : string;
  plan_berths : list BerthPlan
}.

Section Build.
Variable cfg : Config.
Variable policy : FaultPolicy.

(** Modelled from the spec: [initHook], absent from the sources. *)
Definition init_hook (name : string) (hp : HookPlan) : HookData :=
  let t :=
    if plan_attached hp then
      match policy, plan_faulted hp with
      | SetNull, true => None
      | _, _ => Some (tension_in_range (plan_tension hp))
      end
    else None in
  mkHook name t (plan_faulted hp) (plan_attached hp).

(** Modelled from the spec: [initRadar], absent from the sources. *)
Definition init_radar (ship_present : bool) (rp : RadarPlan) : RadarData :=
  if ship_present then
    let d := clamp (docking_min cfg) (docking_max cfg) (plan_distance rp) in
    mkRadar (plan_radar_name rp) d 0 (status_of cfg d)
  else mkRadar (plan_radar_name rp) (neutral_distance cfg) 0 INACTIVE.

Definition build_hook (hp : HookPlan) : Gen HookData :=
  name <-- next_name CHook ;;
  ret (init_hook name hp).

Definition build_bollard (hps : list HookPlan) : Gen BollardData :=
  name <-- next_name CBollard ;;
  hs <-- for_each build_hook hps ;;
  ret (mkBollard name hs).

Definition build_ship (present : bool) : Gen (option ShipData) :=
  if present then
    name <-- next_name CShip ;;
    vid <-- next_name CVessel ;;
    ret (Some (mkShip name vid))
  else ret None.

Definition build_berth (bp : BerthPlan) : Gen BerthData :=
  name <-- next_name CBerth ;;
  sh <-- build_ship (plan_ship bp) ;;
  bs <-- for_each build_bollard (plan_bollards bp) ;;
  ret (mkBerth name
               (Z.of_nat (List.length bs))
               (Z.of_nat (List.length (flat_map hooks bs)))
               sh
               (map (init_radar (plan_ship bp)) (plan_radars bp))
               bs).

(** Modelled from the spec: [build_random_port], absent from the sources.
    The pool is the fresh one of this generation. *)
Definition build_random_port (pools : Pools) (plan : PortPlan)
    : Result PortWorker :=
  match for_each build_berth (plan_berths plan) pools with
  | Failed e => Failed e
  | Done (bs, _) => Done (mkWorker (mkPort (plan_port_name plan) bs))
  end.

End Build.

Definition error_str (e : GenError) : string :=
  match e with
  | NamesExhausted => "NamesExhausted"
  end.

(** What the [try] of [get_port] sees of a generation. *)
Definition outcome (r : Result PortWorker) : App.BuildOutcome :=
  match r with
  | Failed e => App.Raised (error_str e)
  | Done w => App.Built w
  end.

End Engine.

(** ** The service driven by the modelled engine

    The histories in which every generation is a run of the builder and
    every update a tick of the engine. *)

Module Service.

Inductive Query : Type :=
| QBerths
| QBerth (name : string)
| QRaw
| QStatistics
| QAnalysis
| QDownload (now : string).

Inductive Event : Type :=
| Generate (pools : Engine.Pools) (plan : Engine.PortPlan)
| Tick (src : Engine.Source)
| Ask (q : Query).

Section Service.
Variable cfg : Engine.Config.
Variable policy : Engine.FaultPolicy.
Variable data_str : PortData -> string.

Definition request_of (e : Event) : App.Request :=
  match e with
  | Generate pools plan =>
      App.GetPort (Engine.outcome (Engine.build_random_port cfg policy pools plan))
  | Tick src => App.UpdatePort (Engine.update cfg src)
  | Ask QBerths => App.GetBerths
  | Ask (QBerth name) => App.GetBerth name
  | Ask QRaw => App.GetRawPort
  | Ask QStatistics => App.GetStatistics
  | Ask QAnalysis => App.GetTensionAnalysis
  | Ask (QDownload now) => App.DownloadPortData now
  end.

(** The worker held after a history that starts with no port. *)
Definition held (evs : list Event) : App.State :=
  App.run data_str (map request_of evs) App.initial.

End Service.

End Service.

(** ** Structure and leaves of a port *)

Module Shape.

Definition all_hooks (d : PortData) : list HookData :=
  flat_map (fun berth => flat_map hooks (bollards berth)) (berths d).

Definition all_radars (d : PortData) : list RadarData :=
  flat_map radars (berths d).

(** A port with its leaf sensor fields erased: names, ships and the
    denormalized counts stay, of a hook and of a radar only the name. *)
Definition bollard_shape (b : BollardData) : string * list string :=
  (bollard_name b, map hook_name (hooks b)).

Definition berth_shape (berth : BerthData)
    : string * Z * Z * option ShipData * list string
      * list (string * list string) :=
  (berth_name berth, bollard_count berth, hook_count berth, ship berth,
   map radar_name (radars berth), map bollard_shape (bollards berth)).

Definition shape (d : PortData) :=
  (port_name d, map berth_shape (berths d)).

(** The structural counts: berths; per berth the two denormalized fields,
    the radars, the bollards, and the hooks of each bollard. *)
Definition berth_counts (berth : BerthData) : Z * Z * nat * nat * list nat :=
  (bollard_count berth, hook_count berth,
   List.length (radars berth), List.length (bollards berth),
   map (fun b => List.length (hooks b)) (bollards berth)).

Definition counts (d : PortData) : nat * list (Z * Z * nat * nat * list nat) :=
  (List.length (berths d), map berth_counts (berths d)).

(** The attachment invariant of a hook. *)
Definition attachment_ok (h : HookData) : Prop :=
  tension h <> None -> attached_line h = true.

Definition bollard_ok (b : BollardData) : Prop :=
  Forall attachment_ok (hooks b).
Definition berth_ok (berth : BerthData) : Prop :=
  Forall bollard_ok (bollards berth).
Definition port_ok (d : PortData) : Prop :=
  Forall berth_ok (berths d).
Definition state_ok (st : option PortWorker) : Prop :=
  match st with
  | Some w => port_ok (data w)
  | None => True
  end.

End Shape.

(** ** The classification in the words of the specification *)

Module Severity.

(** A hook is counted by [count] when putting it into a bollard, at any
    position, raises the count by one; it is skipped when the count stays. *)
Definition counted (count : list HookData -> Z) (h : HookData) : Prop :=
  forall pre post : list HookData,
    count (pre ++ h :: post)%list = count (pre ++ post)%list + 1.

Definition skipped (count : list HookData -> Z) (h : HookData) : Prop :=
  forall pre post : list HookData,
    count (pre ++ h :: post)%list = count (pre ++ post)%list.

Definition unfaulted_with (P : Q -> Prop) (h : HookData) : Prop :=
  faulted h = false /\ exists t, tension h = Some t /\ P t.

Definition critical (h : HookData) : Prop :=
  unfaulted_with (fun t => 86 <= t)%Q h.
Definition dangerous (h : HookData) : Prop :=
  unfaulted_with (fun t => 70 <= t /\ t <= 85)%Q h.
Definition attention (h : HookData) : Prop :=
  unfaulted_with (fun t => 40 <= t /\ t <= 69)%Q h.

(** The sum of every tension that is not null, whatever the fault flag. *)
Definition sum_non_null (hs : list HookData) : Q :=
  fold_right (fun h acc => match tension h with
                           | Some t => (t + acc)%Q
                           | None => acc
                           end) 0%Q hs.

Definition unit_of (b : bool) : Z := if b then 1 else 0.

Definition count_where (p : HookData -> bool) (hs : list HookData) : Z :=
  Z.of_nat (List.length (filter p hs)).

End Severity.

(** ** Sample data *)

Module Sample.

Definition gap_hook : HookData := mkHook "Hook 1" (Some 69.5%Q) false true.
Definition stale_hook (t : Q) : HookData := mkHook "Hook 2" (Some t) true true.

Definition bollard_a : BollardData := mkBollard "Bollard A" [stale_hook 10].
Definition bollard_b : BollardData := mkBollard "Bollard B" [stale_hook 90].

Definition berth_1 : BerthData :=
  mkBerth "Berth 1" 2 2 (Some (mkShip "Aurora" "V-1"))
          [mkRadar "Radar 1" 12 0 ACTIVE] [bollard_a; bollard_b].

Definition port : PortData := mkPort "Port Hedland" [berth_1].
Definition worker : PortWorker := mkWorker port.

Definition cfg : Engine.Config := Engine.mkConfig 20 0 50 1000.

Definition pools : Engine.Pools :=
  Engine.mkPools ["Aurora"] ["V-1"] ["Berth 1"] ["Bollard A"]
                 ["Hook 1"; "Hook 2"].

Definition plan : Engine.PortPlan :=
  Engine.mkPortPlan "Port Hedland"
    [Engine.mkBerthPlan true [Engine.mkRadarPlan "Radar 1" 12]
       [[Engine.mkHookPlan true 50 false; Engine.mkHookPlan false 0 true]]].

(** A plan that asks for two berths of a pool holding one berth name. *)
Definition greedy_plan : Engine.PortPlan :=
  Engine.mkPortPlan "Port Hedland"
    [Engine.mkBerthPlan false [] []; Engine.mkBerthPlan false [] []].

Definition steady : Engine.Source :=
  fun _ => Engine.mkDraw 1 false false true 30 (-1).

Definition plain_str (d : PortData) : string := port_name d.

Definition history : list Service.Event :=
  [Service.Generate pools plan; Service.Tick steady; Service.Ask Service.QStatistics;
   Service.Tick steady].

End Sample.

(** ** Notions for the properties of the views *)

Module Port.

Definition all_bollards (d : PortData) : list BollardData :=
  flat_map bollards (berths d).

(** The denormalized counts of a berth agree with its nested lists. *)
Definition counts_consistent (berth : BerthData) : Prop :=
  bollard_count berth = Z.of_nat (List.length (bollards berth)) /\
  hook_count berth = Z.of_nat (List.length (flat_map hooks (bollards berth))).

(** The routes that only read [port_worker]. *)
Definition is_read (r : App.Request) : bool :=
  match r with
  | App.GetPort _ | App.UpdatePort _ => false
  | _ => true
  end.

(** An element ties with the key [k] when neither key is less than the
    other. *)
Definition ties {A K : Type} (key : A -> K) (lt : K -> K -> bool) (k : K)
    (x : A) : bool :=
  negb (lt k (key x)) && negb (lt (key x) k).

Definition all_active (rs : list RadarData) : Prop :=
  Forall (fun r => distance_status r = ACTIVE) rs.

End Port.

(** ** A second sample: one berth, a calm bollard before a critical one *)

Module Quay.

Definition calm : BollardData :=
  mkBollard "Bollard 1" [mkHook "Hook 1" (Some 20%Q) false true].
Definition strained : BollardData :=
  mkBollard "Bollard 2" [mkHook "Hook 2" (Some 90%Q) false true;
                         mkHook "Hook 3" None false false].

Definition berth : BerthData :=
  mkBerth "Berth 7" 2 3 None [] [calm; strained].

Definition port : PortData := mkPort "Port Walcott" [berth].

End Quay.

(** * Properties *)

(** ** Sums and counts *)

Lemma fold_add_shift (l : list Z) (a : Z) :
  fold_left Z.add l a = a + fold_left Z.add l 0.
Proof.
  revert a. induction l as [|x l IH]; intro a; simpl.
  - lia.
  - rewrite (IH (a + x)), (IH x). lia.
Qed.

Lemma py_sum_Z_cons (x : Z) (l : list Z) : py_sum_Z (x :: l) = x + py_sum_Z l.
Proof. unfold py_sum_Z. simpl. apply fold_add_shift. Qed.

Lemma py_sum_Z_app (a b : list Z) : py_sum_Z (a ++ b)%list = py_sum_Z a + py_sum_Z b.
Proof.
  induction a as [|x a IH]; simpl.
  - reflexivity.
  - rewrite !py_sum_Z_cons, IH. lia.
Qed.

Lemma py_sum_Z_ones {A : Type} (l : list A) :
  py_sum_Z (map (fun _ => 1) l) = Z.of_nat (List.length l).
Proof.
  induction l as [|x l IH].
  - reflexivity.
  - cbn [map List.length]. rewrite py_sum_Z_cons, IH. lia.
Qed.

Lemma tension_copy (o : option Q) :
  match o with Some t => Some t | None => None end = o.
Proof. destruct o; reflexivity. Qed.

Lemma hooks_data_pairs (b : list HookData) :
  Analysis.hooks_data b = map (fun h => (h, tension h)) b.
Proof.
  unfold Analysis.hooks_data. apply map_ext. intro h.
  now rewrite tension_copy.
Qed.

Lemma count_if_app cond (a b : list (HookData * option Q)) :
  Analysis.count_if cond (a ++ b)%list
  = Analysis.count_if cond a + Analysis.count_if cond b.
Proof.
  unfold Analysis.count_if. now rewrite filter_app, map_app, py_sum_Z_app.
Qed.

Lemma count_if_cons cond x (l : list (HookData * option Q)) :
  Analysis.count_if cond (x :: l) = Severity.unit_of (cond x) + Analysis.count_if cond l.
Proof.
  unfold Analysis.count_if. simpl. destruct (cond x); simpl.
  - now rewrite py_sum_Z_cons.
  - reflexivity.
Qed.

Lemma count_if_place cond (pre post : list HookData) (h : HookData) :
  Analysis.count_if cond (Analysis.hooks_data (pre ++ h :: post)%list)
  = Analysis.count_if cond (Analysis.hooks_data (pre ++ post)%list)
    + Severity.unit_of (cond (h, tension h)).
Proof.
  rewrite !hooks_data_pairs, !map_app. cbn [map].
  rewrite !count_if_app, count_if_cons. lia.
Qed.

Lemma counted_iff cond (h : HookData) :
  Severity.counted (fun b => Analysis.count_if cond (Analysis.hooks_data b)) h
  <-> cond (h, tension h) = true.
Proof.
  split.
  - intro H. specialize (H [] []). cbv beta in H. rewrite count_if_place in H.
    destruct (cond (h, tension h)); [reflexivity|].
    unfold Severity.unit_of in H. lia.
  - intros H pre post. cbv beta. rewrite count_if_place, H. reflexivity.
Qed.

Lemma skipped_iff cond (h : HookData) :
  Severity.skipped (fun b => Analysis.count_if cond (Analysis.hooks_data b)) h
  <-> cond (h, tension h) = false.
Proof.
  split.
  - intro H. specialize (H [] []). cbv beta in H. rewrite count_if_place in H.
    destruct (cond (h, tension h)); [|reflexivity].
    unfold Severity.unit_of in H. lia.
  - intros H pre post. cbv beta. rewrite count_if_place, H.
    unfold Severity.unit_of. lia.
Qed.

(** ** The conditions of the source against the ranges of the specification *)

Lemma is_critical_iff (h : HookData) :
  Analysis.is_critical (h, tension h) = true <-> Severity.critical h.
Proof.
  unfold Analysis.is_critical, Severity.critical, Severity.unfaulted_with.
  rewrite andb_true_iff, negb_true_iff. split.
  - intros [Hf Ht]. split; [exact Hf|].
    destruct (tension h) as [t|]; [|discriminate].
    exists t. split; [reflexivity|]. now apply Qle_bool_iff.
  - intros [Hf [t [Ht Hr]]]. split; [exact Hf|].
    rewrite Ht. now apply Qle_bool_iff.
Qed.

Lemma is_dangerous_iff (h : HookData) :
  Analysis.is_dangerous (h, tension h) = true <-> Severity.dangerous h.
Proof.
  unfold Analysis.is_dangerous, Severity.dangerous, Severity.unfaulted_with.
  rewrite andb_true_iff, negb_true_iff. split.
  - intros [Hf Ht]. split; [exact Hf|].
    destruct (tension h) as [t|]; [|discriminate].
    exists t. split; [reflexivity|].
    apply andb_true_iff in Ht. destruct Ht as [H1 H2].
    split; now apply Qle_bool_iff.
  - intros [Hf [t [Ht [H1 H2]]]]. split; [exact Hf|].
    rewrite Ht. apply andb_true_iff. split; now apply Qle_bool_iff.
Qed.

Lemma is_attention_iff (h : HookData) :
  Analysis.is_attention (h, tension h) = true <-> Severity.attention h.
Proof.
  unfold Analysis.is_attention, Severity.attention, Severity.unfaulted_with.
  rewrite andb_true_iff, negb_true_iff. split.
  - intros [Hf Ht]. split; [exact Hf|].
    destruct (tension h) as [t|]; [|discriminate].
    exists t. split; [reflexivity|].
    apply andb_true_iff in Ht. destruct Ht as [H1 H2].
    split; now apply Qle_bool_iff.
  - intros [Hf [t [Ht [H1 H2]]]]. split; [exact Hf|].
    rewrite Ht. apply andb_true_iff. split; now apply Qle_bool_iff.
Qed.

(** C2: a hook is counted as critical iff it is unfaulted with a non-null
    tension of at least 86, as dangerous iff unfaulted with a tension in
    [70, 85], as attention iff unfaulted with a tension in [40, 69]; a
    faulted hook is left out of all three severity counts whatever its
    tension and is counted in the faulted count, which counts exactly the
    faulted hooks. *)
Theorem severity_classification (h : HookData) :
  (Severity.counted Analysis.critical_count h <-> Severity.critical h) /\
  (Severity.counted Analysis.dangerous_count h <-> Severity.dangerous h) /\
  (Severity.counted Analysis.attention_count h <-> Severity.attention h) /\
  (Severity.counted Analysis.faulted_count h <-> faulted h = true) /\
  (faulted h = true ->
     Severity.skipped Analysis.critical_count h /\
     Severity.skipped Analysis.dangerous_count h /\
     Severity.skipped Analysis.attention_count h).
Proof.
  split; [|split; [|split; [|split]]].
  - rewrite <- is_critical_iff. apply (counted_iff Analysis.is_critical).
  - rewrite <- is_dangerous_iff. apply (counted_iff Analysis.is_dangerous).
  - rewrite <- is_attention_iff. apply (counted_iff Analysis.is_attention).
  - apply (counted_iff Analysis.is_faulted).
  - intro H. split; [|split].
    + apply (skipped_iff Analysis.is_critical). simpl. now rewrite H.
    + apply (skipped_iff Analysis.is_dangerous). simpl. now rewrite H.
    + apply (skipped_iff Analysis.is_attention). simpl. now rewrite H.
Qed.

Lemma Qle_bool_false (a b : Q) : (b < a)%Q -> Qle_bool a b = false.
Proof.
  intro H. destruct (Qle_bool a b) eqn:E; [|reflexivity].
  apply Qle_bool_iff in E. exfalso. exact (Qlt_not_le _ _ H E).
Qed.

(** C9: an unfaulted hook whose tension lies strictly between 69 and 70,
    or strictly between 85 and 86, is counted in none of the attention,
    dangerous and critical counts. *)
Theorem severity_gaps (h : HookData) (t : Q) :
  faulted h = false ->
  tension h = Some t ->
  (69 < t /\ t < 70)%Q \/ (85 < t /\ t < 86)%Q ->
  Severity.skipped Analysis.attention_count h /\
  Severity.skipped Analysis.dangerous_count h /\
  Severity.skipped Analysis.critical_count h.
Proof.
  intros Hf Ht Hgap.
  assert (Hlow : (69 < t)%Q) by (destruct Hgap as [[H _]|[H _]]; [exact H|];
    apply Qlt_trans with 85%Q; [reflexivity | exact H]).
  assert (Hhigh : (t < 86)%Q) by (destruct Hgap as [[_ H]|[_ H]]; [|exact H];
    apply Qlt_trans with 70%Q; [exact H | reflexivity]).
  split; [|split].
  - apply (skipped_iff Analysis.is_attention). simpl. rewrite Hf, Ht. simpl.
    rewrite (Qle_bool_false _ _ Hlow). apply andb_false_r.
  - apply (skipped_iff Analysis.is_dangerous). simpl. rewrite Hf, Ht. simpl.
    destruct Hgap as [[_ H]|[H _]].
    + now rewrite (Qle_bool_false _ _ H).
    + rewrite (Qle_bool_false _ _ H). apply andb_false_r.
  - apply (skipped_iff Analysis.is_critical). simpl. rewrite Hf, Ht. simpl.
    apply (Qle_bool_false _ _ Hhigh).
Qed.

(** C9 at the tension 69.5. *)
Lemma severity_gaps_witness :
  Severity.skipped Analysis.attention_count Sample.gap_hook /\
  Severity.skipped Analysis.dangerous_count Sample.gap_hook /\
  Severity.skipped Analysis.critical_count Sample.gap_hook.
Proof.
  apply (severity_gaps Sample.gap_hook 69.5%Q).
  - reflexivity.
  - reflexivity.
  - left. split; reflexivity.
Defined.

(** ** Totals of tension *)

Lemma fold_Qplus_shift (l : list Q) (a : Q) :
  (fold_left Qplus l a == a + fold_left Qplus l 0)%Q.
Proof.
  revert a. induction l as [|x l IH]; intro a; simpl.
  - ring.
  - rewrite (IH (a + x)%Q), (IH (0 + x)%Q). ring.
Qed.

Lemma sum_non_null_app (a b : list HookData) :
  (Severity.sum_non_null (a ++ b)%list
   == Severity.sum_non_null a + Severity.sum_non_null b)%Q.
Proof.
  induction a as [|h a IH]; simpl.
  - ring.
  - destruct (tension h) as [t|].
    + rewrite IH. ring.
    + exact IH.
Qed.

Lemma total_tension_sum (hs : list HookData) :
  (Analysis.total_tension hs == Severity.sum_non_null hs)%Q.
Proof.
  unfold Analysis.total_tension. rewrite hooks_data_pairs.
  induction hs as [|h hs IH].
  - reflexivity.
  - unfold py_sum_Q in *. cbn [map Analysis.tensions flat_map snd Severity.sum_non_null fold_right].
    destruct (tension h) as [t|]; cbn [app fold_left].
    + rewrite fold_Qplus_shift.
      change (flat_map _ (map (fun h0 => (h0, tension h0)) hs))
        with (Analysis.tensions (map (fun h0 => (h0, tension h0)) hs)).
      rewrite IH. unfold Severity.sum_non_null. ring.
    + exact IH.
Qed.

Lemma fold_left_flat_map {A B C : Type} (f : C -> B -> C) (g : A -> list B)
    (l : list A) (c : C) :
  fold_left (fun acc x => fold_left f (g x) acc) l c
  = fold_left f (flat_map g l) c.
Proof.
  revert c. induction l as [|x l IH]; intro c; simpl.
  - reflexivity.
  - now rewrite fold_left_app, IH.
Qed.

Lemma fold_left_pointwise {A B : Type} (f g : A -> B -> A) (l : list B) (a : A) :
  (forall acc x, f acc x = g acc x) -> fold_left f l a = fold_left g l a.
Proof.
  intro H. revert a. induction l as [|x l IH]; intro a; simpl.
  - reflexivity.
  - now rewrite H, IH.
Qed.

Lemma tally_all_hooks (d : PortData) :
  Statistics.tally d = fold_left Statistics.visit_hook (Shape.all_hooks d) Statistics.zero.
Proof.
  unfold Statistics.tally, Shape.all_hooks.
  rewrite <- fold_left_flat_map.
  apply fold_left_pointwise. intros c berth.
  unfold Statistics.visit_berth, Statistics.visit_bollard.
  apply fold_left_flat_map.
Qed.

Lemma visit_hooks_counters (hs : list HookData) (c : Statistics.Counters) :
  let r := fold_left Statistics.visit_hook hs c in
  Statistics.active_hooks r
    = Statistics.active_hooks c + Severity.count_where attached_line hs /\
  Statistics.faulted_hooks r
    = Statistics.faulted_hooks c + Severity.count_where faulted hs /\
  (Statistics.total_tension r
    == Statistics.total_tension c + Severity.sum_non_null hs)%Q.
Proof.
  revert c. induction hs as [|h hs IH]; intro c; cbn zeta.
  - unfold Severity.count_where. simpl. repeat split; try lia. ring.
  - cbn [fold_left]. specialize (IH (Statistics.visit_hook c h)). cbn zeta in IH.
    destruct IH as (IHa & IHf & IHt).
    rewrite IHa, IHf, IHt. clear IHa IHf IHt.
    unfold Severity.count_where, Statistics.visit_hook.
    cbn [filter Severity.sum_non_null fold_right].
    destruct (attached_line h), (faulted h), (tension h) as [t|];
      cbn [Statistics.active_hooks Statistics.faulted_hooks
           Statistics.total_tension List.length];
      (split; [lia | split; [lia |]]);
      unfold Severity.sum_non_null; ring.
Qed.

(** C10: both totals named [total_tension] add up every non-null tension,
    those of faulted hooks included: the total of the statistics view
    over all hooks of the port, and the third sort key of the analysis
    view over the hooks of the bollard.  A faulted hook with a stale
    tension [t] raises either total by [t], and so decides the order of
    two bollards that tie on the first two keys.  In the statistics a
    hook that is attached and faulted raises both [active_hooks] and
    [faulted_hooks]. *)
Theorem stale_tension_in_totals :
  (forall d : PortData,
     (Statistics.total_tension (Statistics.tally d)
      == Severity.sum_non_null (Shape.all_hooks d))%Q) /\
  (forall berth bollard,
     (snd (Priority.sort_key (Priority.bollard_info berth bollard))
      == Severity.sum_non_null (hooks bollard))%Q) /\
  (forall pre post h t,
     faulted h = true -> tension h = Some t ->
     (Analysis.total_tension (pre ++ h :: post)%list
      == Analysis.total_tension (pre ++ post)%list + t)%Q) /\
  (forall c h t,
     faulted h = true -> tension h = Some t ->
     Statistics.total_tension (Statistics.visit_hook c h)
     = (Statistics.total_tension c + t)%Q) /\
  map Priority.info_bollard_name (Priority.collect Sample.port)
    = ["Bollard A"; "Bollard B"] /\
  map Priority.info_bollard_name (Priority.prioritized Sample.port)
    = ["Bollard B"; "Bollard A"] /\
  (forall d : PortData,
     Statistics.active_hooks (Statistics.tally d)
       = Severity.count_where attached_line (Shape.all_hooks d) /\
     Statistics.faulted_hooks (Statistics.tally d)
       = Severity.count_where faulted (Shape.all_hooks d)) /\
  (forall c h,
     attached_line h = true -> faulted h = true ->
     Statistics.active_hooks (Statistics.visit_hook c h)
       = Statistics.active_hooks c + 1 /\
     Statistics.faulted_hooks (Statistics.visit_hook c h)
       = Statistics.faulted_hooks c + 1).
Proof.
  split; [|split; [|split; [|split; [|split; [|split; [|split]]]]]].
  - intro d. rewrite tally_all_hooks.
    destruct (visit_hooks_counters (Shape.all_hooks d) Statistics.zero) as (_ & _ & H).
    rewrite H. simpl. ring.
  - intros berth bollard. simpl. apply total_tension_sum.
  - intros pre post h t Hf Ht.
    rewrite !total_tension_sum, !sum_non_null_app.
    cbn [Severity.sum_non_null fold_right]. rewrite Ht.
    unfold Severity.sum_non_null. ring.
  - intros c h t Hf Ht. unfold Statistics.visit_hook. rewrite Hf, Ht.
    destruct (attached_line h); reflexivity.
  - reflexivity.
  - vm_compute. reflexivity.
  - intro d. rewrite tally_all_hooks.
    destruct (visit_hooks_counters (Shape.all_hooks d) Statistics.zero) as (Ha & Hf & _).
    rewrite Ha, Hf. simpl. split; reflexivity.
  - intros c h Ha Hf. unfold Statistics.visit_hook. rewrite Ha, Hf.
    destruct (tension h); simpl; split; reflexivity.
Qed.

(** ** The stable sort *)

Section SortFacts.
Context {A K : Type}.
Variable key : A -> K.
Variable lt : K -> K -> bool.
Hypothesis lt_asym : forall a b, lt a b = true -> lt b a = false.
Hypothesis lt_trans : forall a b c, lt a b = true -> lt b c = true -> lt a c = true.

Lemma insert_perm (x : A) (l : list A) :
  Permutation (x :: l) (PySort.insert key lt x l).
Proof.
  induction l as [|y l IH]; simpl.
  - apply Permutation_refl.
  - destruct (lt (key x) (key y)).
    + apply Permutation_refl.
    + eapply perm_trans; [apply perm_swap|]. now apply perm_skip.
Qed.

Lemma insert_sorted (x : A) (l : list A) :
  StronglySorted (PySort.ascending key lt) l -> StronglySorted (PySort.ascending key lt) (PySort.insert key lt x l).
Proof.
  induction 1 as [|y l Hs IH Hy]; simpl.
  - constructor; constructor.
  - destruct (lt (key x) (key y)) eqn:E.
    + constructor.
      * now constructor.
      * constructor.
        -- unfold PySort.ascending. now apply lt_asym.
        -- rewrite Forall_forall in *. intros z Hz. unfold PySort.ascending.
           destruct (lt (key z) (key x)) eqn:Ez; [|reflexivity].
           rewrite <- (Hy z Hz). symmetry. now apply lt_trans with (key x).
    + constructor; [exact IH|].
      apply (Permutation_Forall (insert_perm x l)).
      constructor; [exact E | exact Hy].
Qed.

Lemma sort_from (l acc : list A) :
  StronglySorted (PySort.ascending key lt) acc ->
  let r := fold_left (fun a x => PySort.insert key lt x a) l acc in
  StronglySorted (PySort.ascending key lt) r /\ Permutation (rev l ++ acc)%list r.
Proof.
  revert acc. induction l as [|x l IH]; intros acc Hacc; cbn zeta.
  - split; [exact Hacc | apply Permutation_refl].
  - cbn [fold_left rev].
    destruct (IH _ (insert_sorted x acc Hacc)) as [Hs Hp]. cbn zeta in Hp.
    split; [exact Hs|].
    eapply perm_trans; [|exact Hp].
    rewrite <- app_assoc. apply Permutation_app_head. apply insert_perm.
Qed.

Lemma sort_sorted (l : list A) : StronglySorted (PySort.ascending key lt) (PySort.sort key lt l).
Proof. apply (sort_from l []). constructor. Qed.

Lemma sort_perm (l : list A) : Permutation l (PySort.sort key lt l).
Proof.
  destruct (sort_from l [] (SSorted_nil _)) as [_ Hp]. cbn zeta in Hp.
  rewrite app_nil_r in Hp.
  eapply perm_trans; [apply Permutation_rev | exact Hp].
Qed.

Lemma sorted_snoc (R : A -> A -> Prop) (l : list A) (x : A) :
  StronglySorted R l -> Forall (fun y => R y x) l ->
  StronglySorted R (l ++ [x])%list.
Proof.
  induction 1 as [|y l Hs IH Hy]; intro Hx; simpl.
  - constructor; constructor.
  - inversion Hx as [|? ? Hyx Hlx]; subst.
    constructor; [now apply IH|].
    apply Forall_app. split; [exact Hy | now constructor].
Qed.

Lemma sorted_rev (R : A -> A -> Prop) (l : list A) :
  StronglySorted R l -> StronglySorted (fun a b => R b a) (rev l).
Proof.
  induction 1 as [|y l Hs IH Hy]; simpl.
  - constructor.
  - apply sorted_snoc; [exact IH|].
    apply Forall_rev. exact Hy.
Qed.

(** After [sort(reverse=True)] no element is less than a later one. *)
Lemma sort_reverse_sorted (l : list A) :
  StronglySorted (fun x y => lt (key x) (key y) = false)
                 (PySort.sort_reverse key lt l).
Proof.
  unfold PySort.sort_reverse.
  apply (sorted_rev (PySort.ascending key lt)). apply sort_sorted.
Qed.

Lemma sort_reverse_perm (l : list A) :
  Permutation l (PySort.sort_reverse key lt l).
Proof.
  unfold PySort.sort_reverse.
  eapply perm_trans; [apply Permutation_rev|].
  eapply perm_trans; [apply sort_perm|].
  apply Permutation_rev.
Qed.

End SortFacts.

Lemma sorted_pairs {A : Type} (R : A -> A -> Prop) (l : list A) :
  StronglySorted R l ->
  forall i j x y, (i < j)%nat ->
    nth_error l i = Some x -> nth_error l j = Some y -> R x y.
Proof.
  induction 1 as [|a l Hs IH Ha]; intros i j x y Hij Hi Hj.
  - destruct i; discriminate.
  - destruct j as [|j]; [lia|]. simpl in Hj.
    destruct i as [|i]; simpl in Hi.
    + injection Hi as <-. rewrite Forall_forall in Ha.
      apply Ha. eapply nth_error_In; eassumption.
    + apply (IH i j); [lia | assumption | assumption].
Qed.

(** ** Tuple comparison of the sort keys *)

Lemma Qlt_bool_iff (a b : Q) : Priority.Qlt_bool a b = true <-> (a < b)%Q.
Proof.
  unfold Priority.Qlt_bool. rewrite negb_true_iff. split.
  - intro H. apply Qnot_le_lt. intro Hle.
    apply Qle_bool_iff in Hle. congruence.
  - intro H. now apply Qle_bool_false.
Qed.

Lemma key_lt_iff (a b : Priority.Key) :
  Priority.key_lt a b = true <-> Priority.key_less a b.
Proof.
  destruct a as [[c1 f1] t1], b as [[c2 f2] t2].
  unfold Priority.key_lt, Priority.key_less.
  destruct (Z.eqb_spec c1 c2) as [Hc|Hc]; cbn [negb].
  - destruct (Z.eqb_spec f1 f2) as [Hf|Hf]; cbn [negb].
    + destruct (Qeq_bool t1 t2) eqn:Ht; cbn [negb].
      * apply Qeq_bool_iff in Ht. split; [discriminate|].
        intros [H|[_ [H|[_ H]]]]; try lia. lra.
      * rewrite Qlt_bool_iff. split; [intro H; right; auto|].
        intros [H|[_ [H|[_ H]]]]; try lia. exact H.
    + rewrite Z.ltb_lt. split; [intro H; right; auto|].
      intros [H|[_ [H|[H _]]]]; try lia.
  - rewrite Z.ltb_lt. split; [intro H; left; exact H|].
    intros [H|[H _]]; lia.
Qed.

Lemma key_less_asym (a b : Priority.Key) : Priority.key_less a b -> ~ Priority.key_less b a.
Proof.
  destruct a as [[c1 f1] t1], b as [[c2 f2] t2]. unfold Priority.key_less.
  intros [H|[Hc [H|[Hf H]]]] [H'|[Hc' [H'|[Hf' H']]]]; try lia. lra.
Qed.

Lemma key_less_trans (a b c : Priority.Key) :
  Priority.key_less a b -> Priority.key_less b c -> Priority.key_less a c.
Proof.
  destruct a as [[c1 f1] t1], b as [[c2 f2] t2], c as [[c3 f3] t3].
  unfold Priority.key_less.
  intros [H|[Hc [H|[Hf H]]]] [H'|[Hc' [H'|[Hf' H']]]];
    try (left; lia); try (right; split; [lia|]; left; lia).
  right. split; [lia|]. right. split; [lia|]. lra.
Qed.

Lemma key_lt_asym (a b : Priority.Key) :
  Priority.key_lt a b = true -> Priority.key_lt b a = false.
Proof.
  intro H. apply key_lt_iff in H.
  destruct (Priority.key_lt b a) eqn:E; [|reflexivity].
  apply key_lt_iff in E. exfalso. exact (key_less_asym _ _ H E).
Qed.

Lemma key_lt_trans (a b c : Priority.Key) :
  Priority.key_lt a b = true -> Priority.key_lt b c = true ->
  Priority.key_lt a c = true.
Proof.
  rewrite !key_lt_iff. apply key_less_trans.
Qed.

Lemma key_ge_iff (a b : Priority.Key) :
  Priority.key_lt a b = false <-> Priority.key_ge a b.
Proof.
  rewrite <- not_true_iff_false, key_lt_iff.
  destruct a as [[c1 f1] t1], b as [[c2 f2] t2].
  unfold Priority.key_less, Priority.key_ge. split.
  - intro H.
    destruct (Z.lt_trichotomy c1 c2) as [Hc|[Hc|Hc]].
    + exfalso. apply H. left. exact Hc.
    + destruct (Z.lt_trichotomy f1 f2) as [Hf|[Hf|Hf]].
      * exfalso. apply H. right. split; [exact Hc|]. left. exact Hf.
      * right. split; [exact Hc|]. right. split; [exact Hf|].
        destruct (Qlt_le_dec t1 t2) as [Ht|Ht]; [|exact Ht].
        exfalso. apply H. right. split; [exact Hc|]. right. split; assumption.
      * right. split; [exact Hc|]. left. lia.
    + left. lia.
  - intros [H|[Hc [H|[Hf H]]]] [H'|[Hc' [H'|[Hf' H']]]]; try lia. lra.
Qed.

(** C1: the analysis view returns the collected bollards, each with the
    key (critical count, faulted count, total tension) of its hooks,
    rearranged so that of any two of them the earlier one is
    greater-or-equal under the lexicographic order of that key. *)
Theorem analysis_sorted_descending (d : PortData) :
  Permutation (Priority.collect d) (Priority.prioritized d) /\
  (forall berth bollard,
     Priority.sort_key (Priority.bollard_info berth bollard)
     = (Analysis.critical_count (hooks bollard),
        Analysis.faulted_count (hooks bollard),
        Analysis.total_tension (hooks bollard))) /\
  (forall i j x y,
     (i < j)%nat ->
     nth_error (Priority.prioritized d) i = Some x ->
     nth_error (Priority.prioritized d) j = Some y ->
     Priority.key_ge (Priority.sort_key x) (Priority.sort_key y)) /\
  Json.field "bollards" (body (fst (App.get_tension_analysis (Some (mkWorker d)))))
  = Some (JArr (map Views.bollard_info_json (Priority.prioritized d))).
Proof.
  split; [|split; [|split]].
  - apply sort_reverse_perm; [exact key_lt_asym | exact key_lt_trans].
  - reflexivity.
  - intros i j x y Hij Hi Hj. apply key_ge_iff.
    eapply (sorted_pairs _ _
              (sort_reverse_sorted Priority.sort_key Priority.key_lt
                 key_lt_asym key_lt_trans (Priority.collect d)));
      eassumption.
  - reflexivity.
Qed.

(** ** The guard on [port_worker] *)

Lemma handle_without_port (data_str : PortData -> string) (r : App.Request) :
  App.not_generated r = true -> snd (App.handle data_str r None) = None.
Proof.
  destruct r as [[msg|w]| | | | | | |]; intro H; try reflexivity.
  discriminate.
Qed.

Lemma run_without_port (data_str : PortData -> string) (rs : list App.Request) :
  forallb App.not_generated rs = true -> App.run data_str rs None = None.
Proof.
  unfold App.run. induction rs as [|r rs IH]; simpl; intro H.
  - reflexivity.
  - apply andb_true_iff in H. destruct H as [Hr Hrs].
    rewrite (handle_without_port data_str r Hr). now apply IH.
Qed.

(** C3: as long as no generation has succeeded, every operation that
    needs a port (berth listing, berth lookup, update, raw view,
    statistics, analysis, download) answers 404 with the no-port error of
    its guard, and the service still holds no port afterwards. *)
Theorem no_state_before_generation (data_str : PortData -> string)
    (rs : list App.Request) (r : App.Request) :
  forallb App.not_generated rs = true ->
  App.requires_state r = true ->
  App.run data_str rs App.initial = None /\
  App.handle data_str r (App.run data_str rs App.initial)
  = (error 404 (App.no_state_message r), None).
Proof.
  intros Hrs Hr. unfold App.initial.
  rewrite (run_without_port data_str rs Hrs). split; [reflexivity|].
  destruct r; try reflexivity. discriminate.
Qed.

(** C3 on a history with a failed generation, then a download. *)
Lemma no_state_before_generation_witness :
  let rs := [App.GetBerths; App.GetPort (App.Raised "NamesExhausted");
             App.UpdatePort (fun w => w)] in
  let r := App.DownloadPortData "2025-11-04T10:00:00" in
  App.run Sample.plain_str rs App.initial = None /\
  App.handle Sample.plain_str r (App.run Sample.plain_str rs App.initial)
  = (error 404 "No port data available. Generate port data first", None).
Proof.
  cbv zeta.
  apply (no_state_before_generation Sample.plain_str
           [App.GetBerths; App.GetPort (App.Raised "NamesExhausted");
            App.UpdatePort (fun w => w)]
           (App.DownloadPortData "2025-11-04T10:00:00")); reflexivity.
Defined.

(** C4: when the generation raises, [get_port] answers 500 with the
    error text and the service holds what it held before: the previous
    port, or none; every later request is answered as if the failed
    attempt had not happened. *)
Theorem failed_generation_keeps_state (data_str : PortData -> string)
    (msg : string) (st : App.State) :
  App.get_port (App.Raised msg) st
  = (error 500 ("Failed to generate port: " ++ msg), st) /\
  App.run data_str [App.GetPort (App.Raised msg)] st = st /\
  (forall rs : list App.Request,
     App.run data_str (App.GetPort (App.Raised msg) :: rs) st
     = App.run data_str rs st).
Proof.
  split; [reflexivity | split; reflexivity].
Qed.

(** The builder runs out of berth names on the greedy plan, and the port
    generated before stays the one held. *)
Example exhausted_generation_keeps_port :
  Engine.build_random_port Sample.cfg Engine.KeepStale Sample.pools Sample.greedy_plan
  = Engine.Failed Engine.NamesExhausted /\
  Service.held Sample.cfg Engine.KeepStale Sample.plain_str
    [Service.Generate Sample.pools Sample.plan;
     Service.Generate Sample.pools Sample.greedy_plan]
  = Service.held Sample.cfg Engine.KeepStale Sample.plain_str
      [Service.Generate Sample.pools Sample.plan] /\
  Service.held Sample.cfg Engine.KeepStale Sample.plain_str
    [Service.Generate Sample.pools Sample.greedy_plan]
  = None.
Proof. repeat split. Qed.

(** ** The download *)

Lemma traverse_map {A : Type} (to_json : A -> json) (of_json : json -> option A)
    (l : list A) :
  (forall a, of_json (to_json a) = Some a) ->
  Reader.traverse of_json (map to_json l) = Some l.
Proof.
  intro H. induction l as [|a l IH]; simpl.
  - reflexivity.
  - rewrite H. simpl. rewrite IH. reflexivity.
Qed.

Lemma hook_of_json (h : HookData) : Reader.hook_of (Views.hook_json h) = Some h.
Proof. destruct h as [n [t|] f a]; reflexivity. Qed.

Lemma bollard_of_json (b : BollardData) :
  Reader.bollard_of (Views.bollard_json b) = Some b.
Proof.
  destruct b as [n hs]. unfold Reader.bollard_of, Views.bollard_json. simpl.
  rewrite (traverse_map _ _ hs hook_of_json). reflexivity.
Qed.

Lemma radar_of_json (r : RadarData) : Reader.radar_of (Views.radar_json r) = Some r.
Proof. destruct r as [n d c []]; reflexivity. Qed.

Lemma berth_of_json (b : BerthData) : Reader.berth_of (Views.berth_json b) = Some b.
Proof.
  destruct b as [n bc hc s rs bs]. unfold Reader.berth_of, Views.berth_json.
  cbn [field lookup String.eqb Ascii.eqb Bool.eqb Reader.bind Reader.as_str
       Reader.as_int Reader.as_arr bollard_count hook_count berth_name ship
       radars bollards].
  assert (Hs : Reader.ship_of (Views.ship_json s) = Some s)
    by (destruct s as [[sn sv]|]; reflexivity).
  rewrite Hs. cbn [Reader.bind].
  rewrite (traverse_map _ _ rs radar_of_json). cbn [Reader.bind].
  rewrite (traverse_map _ _ bs bollard_of_json). reflexivity.
Qed.

(** C8, as the code has it: the download answers 200 with a dictionary
    that carries the clock reading taken while the request is served,
    the port name, the number of berths and, per berth, the whole tree of
    radars, bollards and hooks, from which the held port can be read
    back; the held port is left as it is. *)
Theorem download_snapshot (now : string) (w : PortWorker) :
  let resp := fst (App.download_port_data now (Some w)) in
  status resp = 200 /\
  field "timestamp" (body resp) = Some (JStr now) /\
  field "port_name" (body resp) = Some (JStr (port_name (data w))) /\
  field "total_berths" (body resp)
    = Some (JInt (Z.of_nat (List.length (berths (data w))))) /\
  field "berths" (body resp) = Some (JArr (map Views.berth_json (berths (data w)))) /\
  Reader.port_of (body resp) = Some (data w) /\
  snd (App.download_port_data now (Some w)) = Some w.
Proof.
  cbv zeta. repeat split.
  destruct w as [[n bs]]. unfold Reader.port_of. simpl.
  rewrite (traverse_map _ _ bs berth_of_json). reflexivity.
Qed.

(** C8, against the reading that the snapshot shows when the port was
    generated: the timestamp of the download is no property of the held
    port.  The same port downloaded at two clock readings carries two
    timestamps, so no stamp fixed when the port was generated is what the
    snapshot shows. *)
Lemma download_timestamp_not_of_state :
  let st := Some Sample.worker in
  field "timestamp" (body (fst (App.download_port_data "2025-11-04T10:00:00" st)))
    = Some (JStr "2025-11-04T10:00:00") /\
  field "timestamp" (body (fst (App.download_port_data "2025-11-04T10:00:05" st)))
    = Some (JStr "2025-11-04T10:00:05") /\
  ~ (exists generated_at : PortWorker -> string,
       forall now w,
         field "timestamp" (body (fst (App.download_port_data now (Some w))))
         = Some (JStr (generated_at w))).
Proof.
  cbv zeta. split; [reflexivity | split; [reflexivity|]].
  intros [generated_at H].
  pose proof (H "2025-11-04T10:00:00" Sample.worker) as H1.
  pose proof (H "2025-11-04T10:00:05" Sample.worker) as H2.
  simpl in H1, H2. rewrite <- H1 in H2. discriminate.
Qed.

(** ** One tick of the modelled engine *)

Lemma map_st_length {A B : Type} (f : A -> nat -> B * nat) (l : list A) (n : nat) :
  List.length (fst (Engine.map_st f l n)) = List.length l.
Proof.
  revert n. induction l as [|x l IH]; intro n; simpl.
  - reflexivity.
  - destruct (f x n) as [y n1]. specialize (IH n1).
    destruct (Engine.map_st f l n1) as [ys n2]. simpl in *. now rewrite IH.
Qed.

Lemma map_st_map {A B C : Type} (f : A -> nat -> B * nat) (g : B -> C)
    (g' : A -> C) (l : list A) (n : nat) :
  (forall x k, g (fst (f x k)) = g' x) ->
  map g (fst (Engine.map_st f l n)) = map g' l.
Proof.
  intro H. revert n. induction l as [|x l IH]; intro n; simpl.
  - reflexivity.
  - specialize (H x n) as Hx. destruct (f x n) as [y n1]. specialize (IH n1).
    destruct (Engine.map_st f l n1) as [ys n2]. simpl in *. now rewrite Hx, IH.
Qed.

Lemma map_st_Forall {A B : Type} (f : A -> nat -> B * nat) (P : A -> Prop)
    (Q : B -> Prop) (l : list A) (n : nat) :
  (forall x k, P x -> Q (fst (f x k))) ->
  Forall P l -> Forall Q (fst (Engine.map_st f l n)).
Proof.
  intros H Hl. revert n. induction Hl as [|x l Hx Hl IH]; intro n; simpl.
  - constructor.
  - specialize (H x n Hx) as Hy. destruct (f x n) as [y n1]. specialize (IH n1).
    destruct (Engine.map_st f l n1) as [ys n2]. simpl in *. now constructor.
Qed.

Lemma update_hook_name (dr : Engine.Draw) (h : HookData) :
  hook_name (Engine.update_hook dr h) = hook_name h.
Proof.
  unfold Engine.update_hook.
  destruct (attached_line h), (Engine.detach_event dr), (Engine.reattach_event dr);
    reflexivity.
Qed.

Lemma update_radar_name cfg has_ship (dr : Engine.Draw) (r : RadarData) :
  radar_name (Engine.update_radar cfg has_ship dr r) = radar_name r.
Proof. unfold Engine.update_radar. destruct has_ship; reflexivity. Qed.

Section TickFacts.
Variable cfg : Engine.Config.
Variable src : Engine.Source.

Lemma update_bollard_hooks (b : BollardData) (n : nat) :
  bollard_name (fst (Engine.update_bollard src b n)) = bollard_name b /\
  hooks (fst (Engine.update_bollard src b n))
  = fst (Engine.map_st (fun h k => (Engine.update_hook (src k) h, S k)) (hooks b) n).
Proof.
  unfold Engine.update_bollard.
  destruct (Engine.map_st _ (hooks b) n) as [hs n']. split; reflexivity.
Qed.

Lemma update_bollard_shape (b : BollardData) (n : nat) :
  Shape.bollard_shape (fst (Engine.update_bollard src b n)) = Shape.bollard_shape b.
Proof.
  unfold Shape.bollard_shape.
  destruct (update_bollard_hooks b n) as [Hn Hh]. rewrite Hn, Hh.
  f_equal. apply map_st_map. intros h k. apply update_hook_name.
Qed.

Lemma update_bollard_size (b : BollardData) (n : nat) :
  List.length (hooks (fst (Engine.update_bollard src b n))) = List.length (hooks b).
Proof.
  destruct (update_bollard_hooks b n) as [_ Hh]. rewrite Hh. apply map_st_length.
Qed.

Lemma update_berth_fields (berth : BerthData) (n : nat) :
  let berth' := fst (Engine.update_berth cfg src berth n) in
  berth_name berth' = berth_name berth /\
  bollard_count berth' = bollard_count berth /\
  hook_count berth' = hook_count berth /\
  ship berth' = ship berth /\
  bollards berth' = fst (Engine.map_st (Engine.update_bollard src) (bollards berth) n) /\
  exists n1,
    radars berth'
    = fst (Engine.map_st
             (fun r k => (Engine.update_radar cfg
                            match ship berth with Some _ => true | None => false end
                            (src k) r, S k))
             (radars berth) n1).
Proof.
  unfold Engine.update_berth.
  destruct (Engine.map_st (Engine.update_bollard src) (bollards berth) n) as [bs n1].
  cbn zeta.
  destruct (Engine.map_st _ (radars berth) n1) as [rs n2] eqn:E.
  cbn [fst berth_name bollard_count hook_count ship bollards radars].
  repeat split. exists n1. now rewrite E.
Qed.

Lemma update_berth_shape (berth : BerthData) (n : nat) :
  Shape.berth_shape (fst (Engine.update_berth cfg src berth n)) = Shape.berth_shape berth.
Proof.
  unfold Shape.berth_shape.
  destruct (update_berth_fields berth n) as (Hn & Hb & Hh & Hs & Hbs & n1 & Hrs).
  rewrite Hn, Hb, Hh, Hs, Hbs, Hrs.
  f_equal; [f_equal|].
  - apply map_st_map. intros r k. apply update_radar_name.
  - apply map_st_map. intros b k. apply update_bollard_shape.
Qed.

Lemma update_berth_counts (berth : BerthData) (n : nat) :
  Shape.berth_counts (fst (Engine.update_berth cfg src berth n))
  = Shape.berth_counts berth.
Proof.
  unfold Shape.berth_counts.
  destruct (update_berth_fields berth n) as (Hn & Hb & Hh & Hs & Hbs & n1 & Hrs).
  rewrite Hb, Hh, Hbs, Hrs, !map_st_length.
  f_equal. apply map_st_map. intros b k. apply update_bollard_size.
Qed.

Lemma update_data_shape (d : PortData) :
  Shape.shape (Engine.update_data cfg src d) = Shape.shape d.
Proof.
  unfold Shape.shape, Engine.update_data. cbn [port_name berths].
  f_equal. apply map_st_map. intros b k. apply update_berth_shape.
Qed.

Lemma update_data_counts (d : PortData) :
  Shape.counts (Engine.update_data cfg src d) = Shape.counts d.
Proof.
  unfold Shape.counts, Engine.update_data. cbn [port_name berths].
  rewrite map_st_length. f_equal.
  apply map_st_map. intros b k. apply update_berth_counts.
Qed.

End TickFacts.

Lemma ticks_keep_structure (cfg : Engine.Config) (data_str : PortData -> string)
    (srcs : list Engine.Source) (w : PortWorker) :
  exists w',
    App.run data_str
      (map (fun src => App.UpdatePort (Engine.update cfg src)) srcs) (Some w)
    = Some w' /\
    Shape.counts (data w') = Shape.counts (data w) /\
    Shape.shape (data w') = Shape.shape (data w).
Proof.
  revert w. induction srcs as [|src srcs IH]; intro w.
  - exists w. repeat split.
  - destruct (IH (Engine.update cfg src w)) as (w' & Hrun & Hc & Hs).
    exists w'. split; [exact Hrun|].
    rewrite Hc, Hs. unfold Engine.update. cbn [data].
    split; [apply update_data_counts | apply update_data_shape].
Qed.

(** C5: on a held port the update answers 200 with the success message,
    and the port held afterwards has the same structural counts (berths;
    per berth the radars, the bollards, the hooks of each bollard and the
    two denormalized count fields) and the same structure: it differs
    from the port before in leaf sensor fields only.  The same holds
    after any number of updates. *)
Theorem update_keeps_structure (cfg : Engine.Config) (data_str : PortData -> string)
    (src : Engine.Source) (w : PortWorker) :
  let result := App.update_port (Engine.update cfg src) (Some w) in
  status (fst result) = 200 /\
  body (fst result)
  = JObj [("message", JStr "Port data updated successfully");
          ("port_name", JStr (port_name (data w)))] /\
  (exists w',
     snd result = Some w' /\
     Shape.counts (data w') = Shape.counts (data w) /\
     Shape.shape (data w') = Shape.shape (data w)) /\
  (forall srcs : list Engine.Source,
     exists w',
       App.run data_str
         (map (fun s => App.UpdatePort (Engine.update cfg s)) srcs) (Some w)
       = Some w' /\
       Shape.counts (data w') = Shape.counts (data w) /\
       Shape.shape (data w') = Shape.shape (data w)).
Proof.
  cbv zeta. split; [reflexivity | split; [reflexivity | split]].
  - exists (Engine.update cfg src w). split; [reflexivity|].
    unfold Engine.update. cbn [data].
    split; [apply update_data_counts | apply update_data_shape].
  - intro srcs. apply ticks_keep_structure.
Qed.

(** ** The attachment invariant over the histories of the service *)

Lemma update_hook_attachment (dr : Engine.Draw) (h : HookData) :
  Shape.attachment_ok h -> Shape.attachment_ok (Engine.update_hook dr h).
Proof.
  unfold Shape.attachment_ok, Engine.update_hook. intro H.
  destruct (attached_line h) eqn:Ea.
  - destruct (Engine.detach_event dr); simpl; [congruence | reflexivity].
  - destruct (Engine.reattach_event dr); simpl; [reflexivity|].
    rewrite Ea. exact H.
Qed.

Lemma init_hook_attachment policy (name : string) (hp : Engine.HookPlan) :
  Shape.attachment_ok (Engine.init_hook policy name hp).
Proof.
  unfold Shape.attachment_ok, Engine.init_hook. simpl.
  destruct (Engine.plan_attached hp); [reflexivity | congruence].
Qed.

Lemma update_data_ok cfg src (d : PortData) :
  Shape.port_ok d -> Shape.port_ok (Engine.update_data cfg src d).
Proof.
  unfold Shape.port_ok, Engine.update_data. cbn [berths].
  apply map_st_Forall. intros berth n Hb. unfold Shape.berth_ok in *.
  destruct (update_berth_fields cfg src berth n) as (_ & _ & _ & _ & Hbs & _).
  rewrite Hbs. revert Hb. apply map_st_Forall.
  intros b k Hk. unfold Shape.bollard_ok in *.
  destruct (update_bollard_hooks src b k) as [_ Hh]. rewrite Hh.
  revert Hk. apply map_st_Forall.
  intros h j Hj. cbn [fst]. now apply update_hook_attachment.
Qed.

Lemma for_each_Forall {A B : Type} (f : A -> Engine.Gen B) (P : B -> Prop)
    (l : list A) :
  (forall x p y p', f x p = Engine.Done (y, p') -> P y) ->
  forall p ys p', Engine.for_each f l p = Engine.Done (ys, p') -> Forall P ys.
Proof.
  intro H. induction l as [|x l IH]; intros p ys p' E; simpl in E.
  - unfold Engine.ret in E. injection E as <- _. constructor.
  - unfold Engine.bind in E.
    destruct (f x p) as [e|[y p1]] eqn:Ex; [discriminate|].
    destruct (Engine.for_each f l p1) as [e|[zs p2]] eqn:El; [discriminate|].
    unfold Engine.ret in E. injection E as <- _.
    constructor; [eapply H; eassumption | eapply IH; eassumption].
Qed.

Lemma build_bollard_ok policy (hps : list Engine.HookPlan) p b p' :
  Engine.build_bollard policy hps p = Engine.Done (b, p') -> Shape.bollard_ok b.
Proof.
  unfold Engine.build_bollard, Engine.bind. intro E.
  destruct (Engine.next_name Engine.CBollard p) as [e|[name p1]]; [discriminate|].
  destruct (Engine.for_each (Engine.build_hook policy) hps p1) as [e|[hs p2]] eqn:Eh;
    [discriminate|].
  unfold Engine.ret in E. injection E as <- _.
  unfold Shape.bollard_ok. cbn [hooks].
  apply (for_each_Forall (Engine.build_hook policy) Shape.attachment_ok hps) in Eh;
    [exact Eh|].
  intros hp q h q' Eq. unfold Engine.build_hook, Engine.bind in Eq.
  destruct (Engine.next_name Engine.CHook q) as [e|[name' q1]]; [discriminate|].
  unfold Engine.ret in Eq. injection Eq as <- _. apply init_hook_attachment.
Qed.

Lemma build_berth_ok cfg policy (bp : Engine.BerthPlan) p berth p' :
  Engine.build_berth cfg policy bp p = Engine.Done (berth, p') -> Shape.berth_ok berth.
Proof.
  unfold Engine.build_berth, Engine.bind. intro E.
  destruct (Engine.next_name Engine.CBerth p) as [e|[name p1]]; [discriminate|].
  destruct (Engine.build_ship (Engine.plan_ship bp) p1) as [e|[sh p2]]; [discriminate|].
  destruct (Engine.for_each (Engine.build_bollard policy) (Engine.plan_bollards bp) p2)
    as [e|[bs p3]] eqn:Eb; [discriminate|].
  unfold Engine.ret in E. injection E as <- _.
  unfold Shape.berth_ok. cbn [bollards].
  eapply for_each_Forall; [|exact Eb].
  intros hps q b q'. apply build_bollard_ok.
Qed.

Lemma build_random_port_ok cfg policy pools plan w :
  Engine.build_random_port cfg policy pools plan = Engine.Done w ->
  Shape.port_ok (data w).
Proof.
  unfold Engine.build_random_port. intro E.
  destruct (Engine.for_each (Engine.build_berth cfg policy)
              (Engine.plan_berths plan) pools) as [e|[bs p]] eqn:Eb; [discriminate|].
  injection E as <-. unfold Shape.port_ok. cbn [data berths].
  eapply for_each_Forall; [|exact Eb].
  intros bp q berth q'. apply build_berth_ok.
Qed.

Lemma step_ok cfg policy data_str (ev : Service.Event) (st : App.State) :
  Shape.state_ok st ->
  Shape.state_ok (snd (App.handle data_str (Service.request_of cfg policy ev) st)).
Proof.
  intro H. destruct ev as [pools plan|src|q].
  - cbn [Service.request_of App.handle].
    destruct (Engine.build_random_port cfg policy pools plan) as [e|w] eqn:E;
      cbn [Engine.outcome App.get_port snd].
    + exact H.
    + cbn [Shape.state_ok]. eapply build_random_port_ok. exact E.
  - destruct st as [w|]; [|exact I].
    cbn [Service.request_of App.handle App.update_port snd Shape.state_ok
         Engine.update data].
    now apply update_data_ok.
  - destruct q, st as [w|]; try exact I; try exact H.
    cbn [Service.request_of App.handle App.get_berth].
    destruct (find _ _); exact H.
Qed.

Lemma history_ok cfg policy data_str (evs : list Service.Event) (st : App.State) :
  Shape.state_ok st ->
  Shape.state_ok (App.run data_str (map (Service.request_of cfg policy) evs) st).
Proof.
  revert st. unfold App.run.
  induction evs as [|ev evs IH]; intros st H; simpl.
  - exact H.
  - apply IH. now apply step_ok.
Qed.

Lemma port_ok_hooks (d : PortData) (h : HookData) :
  Shape.port_ok d -> In h (Shape.all_hooks d) -> Shape.attachment_ok h.
Proof.
  unfold Shape.port_ok, Shape.all_hooks. intros H Hin.
  apply in_flat_map in Hin. destruct Hin as (berth & Hberth & Hin).
  apply in_flat_map in Hin. destruct Hin as (b & Hb & Hin).
  rewrite Forall_forall in H. specialize (H berth Hberth).
  unfold Shape.berth_ok in H. rewrite Forall_forall in H. specialize (H b Hb).
  unfold Shape.bollard_ok in H. rewrite Forall_forall in H. now apply H.
Qed.

(** C6: in every port the service can hold, after a generation and any
    number of updates and reads, every hook whose tension is not null has
    its line attached. *)
Theorem tension_implies_attached (cfg : Engine.Config)
    (policy : Engine.FaultPolicy) (data_str : PortData -> string)
    (evs : list Service.Event) (w : PortWorker) (h : HookData) :
  Service.held cfg policy data_str evs = Some w ->
  In h (Shape.all_hooks (data w)) ->
  tension h <> None ->
  attached_line h = true.
Proof.
  intros Hheld Hin. apply (port_ok_hooks (data w)); [|exact Hin].
  change (Shape.state_ok (Some w)). rewrite <- Hheld.
  apply history_ok. exact I.
Qed.

(** C6 on the re-attached second hook of the sample history. *)
Lemma tension_implies_attached_witness :
  exists w h,
    Service.held Sample.cfg Engine.KeepStale Sample.plain_str Sample.history = Some w /\
    In h (Shape.all_hooks (data w)) /\
    tension h <> None /\
    attached_line h = true.
Proof.
  eexists. eexists.
  split; [vm_compute; reflexivity|].
  split; [right; left; reflexivity|].
  split; [discriminate|].
  eapply (tension_implies_attached Sample.cfg Engine.KeepStale Sample.plain_str
            Sample.history).
  - vm_compute. reflexivity.
  - right. left. reflexivity.
  - discriminate.
Defined.

(** * Further properties of the handlers *)

(** ** Berth lookup *)

Lemma find_none_iff {A : Type} (p : A -> bool) (l : list A) :
  find p l = None <-> forall x, In x l -> p x = false.
Proof.
  split.
  - intros H x Hx. exact (find_none p l H x Hx).
  - intro H. destruct (find p l) as [x|] eqn:E; [|reflexivity].
    apply find_some in E. destruct E as [Hin Hp].
    rewrite (H x Hin) in Hp. discriminate.
Qed.

Lemma find_first {A : Type} (p : A -> bool) (pre post : list A) (x : A) :
  (forall y, In y pre -> p y = false) -> p x = true ->
  find p (pre ++ x :: post)%list = Some x.
Proof.
  intros Hpre Hx. induction pre as [|y pre IH]; simpl.
  - now rewrite Hx.
  - rewrite (Hpre y (or_introl eq_refl)). apply IH.
    intros z Hz. apply Hpre. now right.
Qed.

(** X1: the berth lookup answers 404 "Berth '<name>' not found" exactly
    when no berth of the held port has that name. *)
Theorem get_berth_missing (name : string) (w : PortWorker) :
  (forall b, In b (berths (data w)) -> berth_name b <> name) <->
  App.get_berth name (Some w)
  = (error 404 ("Berth '" ++ name ++ "' not found"), Some w).
Proof.
  unfold App.get_berth. cbv zeta. split.
  - intro H.
    assert (E : find (fun b => String.eqb (berth_name b) name) (berths (data w)) = None).
    { apply find_none_iff. intros b Hb. apply String.eqb_neq. now apply H. }
    now rewrite E.
  - intros E b Hb Hname.
    destruct (find (fun b => String.eqb (berth_name b) name) (berths (data w)))
      as [b'|] eqn:Ef.
    + unfold ok, error in E. discriminate.
    + pose proof (find_none _ _ Ef b Hb) as Hn. cbv beta in Hn.
      apply String.eqb_neq in Hn. contradiction.
Qed.

(** X2: when several berths carry the requested name the lookup returns
    the first of them in port order, with status 200, and the name in the
    answer is the requested one. *)
Theorem get_berth_first_match (name : string) (w : PortWorker)
    (pre post : list BerthData) (b : BerthData) :
  berths (data w) = (pre ++ b :: post)%list ->
  berth_name b = name ->
  (forall b', In b' pre -> berth_name b' <> name) ->
  App.get_berth name (Some w) = (ok (Views.berth_json b), Some w) /\
  field "name" (body (fst (App.get_berth name (Some w)))) = Some (JStr name).
Proof.
  intros Hbs Hb Hpre.
  assert (E : App.get_berth name (Some w) = (ok (Views.berth_json b), Some w)).
  { unfold App.get_berth. cbv zeta. rewrite Hbs.
    rewrite (find_first _ pre post b); [reflexivity | |].
    - intros y Hy. apply String.eqb_neq. now apply Hpre.
    - now apply String.eqb_eq. }
  split; [exact E|]. rewrite E. simpl. now rewrite Hb.
Qed.

(** X2 on a port with two berths of the same name. *)
Lemma get_berth_first_match_witness :
  let twin := mkBerth "Berth 1" 0 0 None [] [] in
  let w := mkWorker (mkPort "P" [Sample.berth_1; twin]) in
  App.get_berth "Berth 1" (Some w) = (ok (Views.berth_json Sample.berth_1), Some w) /\
  field "name" (body (fst (App.get_berth "Berth 1" (Some w)))) = Some (JStr "Berth 1").
Proof.
  cbv zeta.
  apply (get_berth_first_match "Berth 1"
           (mkWorker (mkPort "P" [Sample.berth_1; mkBerth "Berth 1" 0 0 None [] []]))
           [] [mkBerth "Berth 1" 0 0 None [] []] Sample.berth_1).
  - reflexivity.
  - reflexivity.
  - intros b' [].
Defined.

(** X3: whatever the lookup answers with status other than 404 is one of
    the entries of the berth listing, and carries the requested name. *)
Theorem get_berth_in_listing (name : string) (w : PortWorker) :
  status (fst (App.get_berth name (Some w))) = 404 \/
  (status (fst (App.get_berth name (Some w))) = 200 /\
   field "name" (body (fst (App.get_berth name (Some w)))) = Some (JStr name) /\
   exists items,
     field "berths" (body (fst (App.get_berths (Some w)))) = Some (JArr items) /\
     In (body (fst (App.get_berth name (Some w)))) items).
Proof.
  unfold App.get_berth, App.get_berths. cbv zeta.
  destruct (find (fun b => String.eqb (berth_name b) name) (berths (data w)))
    as [b|] eqn:E.
  - right. apply find_some in E. destruct E as [Hin Hname].
    apply String.eqb_eq in Hname.
    split; [reflexivity|]. split; [simpl; now rewrite Hname|].
    exists (map Views.berth_json (berths (data w))). split; [reflexivity|].
    simpl. now apply in_map.
  - left. reflexivity.
Qed.

(** ** The held worker over a history *)

Lemma run_app (data_str : PortData -> string) (rs1 rs2 : list App.Request)
    (st : App.State) :
  App.run data_str (rs1 ++ rs2)%list st
  = App.run data_str rs2 (App.run data_str rs1 st).
Proof. unfold App.run. apply fold_left_app. Qed.

Lemma read_keeps_state (data_str : PortData -> string) (r : App.Request)
    (st : App.State) :
  Port.is_read r = true -> snd (App.handle data_str r st) = st.
Proof.
  destruct r as [o| |name|u| | | |now]; intro H; try discriminate;
    destruct st as [w|]; try reflexivity.
  simpl. unfold App.get_berth. cbv zeta.
  destruct (find _ _); reflexivity.
Qed.

(** X4: the six reading routes (berth listing, berth lookup, raw view,
    statistics, analysis, download) never change the held worker, neither
    one of them nor any sequence of them, whatever they answer. *)
Theorem reads_keep_state (data_str : PortData -> string)
    (rs : list App.Request) (st : App.State) :
  forallb Port.is_read rs = true ->
  App.run data_str rs st = st /\
  Forall (fun r => snd (App.handle data_str r st) = st) rs.
Proof.
  intro H. split.
  - revert st. unfold App.run. induction rs as [|r rs IH]; intro st; simpl.
    + reflexivity.
    + simpl in H. apply andb_true_iff in H. destruct H as [Hr Hrs].
      rewrite (read_keeps_state data_str r st Hr). now apply IH.
  - rewrite Forall_forall. intros r Hr.
    rewrite forallb_forall in H. apply read_keeps_state. now apply H.
Qed.

(** X4 on a lookup of a berth that does not exist, a download and the
    statistics. *)
Lemma reads_keep_state_witness :
  let rs := [App.GetBerth "Berth 9"; App.DownloadPortData "2025-11-04T10:00:00";
             App.GetStatistics] in
  App.run Sample.plain_str rs (Some Sample.worker) = Some Sample.worker /\
  Forall (fun r => snd (App.handle Sample.plain_str r (Some Sample.worker))
                   = Some Sample.worker) rs.
Proof.
  cbv zeta.
  apply (reads_keep_state Sample.plain_str
           [App.GetBerth "Berth 9"; App.DownloadPortData "2025-11-04T10:00:00";
            App.GetStatistics] (Some Sample.worker)).
  reflexivity.
Defined.

(** X5: a generation that succeeds replaces whatever was held, so the
    worker held at the end of a history depends only on the last
    successful generation and the requests after it. *)
Theorem generation_resets_history (data_str : PortData -> string)
    (before after : list App.Request) (w : PortWorker) (st : App.State) :
  App.run data_str (before ++ App.GetPort (App.Built w) :: after)%list st
  = App.run data_str after (Some w).
Proof. rewrite run_app. reflexivity. Qed.

Lemma handle_keeps_port (data_str : PortData -> string) (r : App.Request)
    (w : PortWorker) :
  exists w', snd (App.handle data_str r (Some w)) = Some w'.
Proof.
  destruct r as [[msg|w1]| |name|u| | | |now]; simpl; eauto.
  unfold App.get_berth. cbv zeta. destruct (find _ _); simpl; eauto.
Qed.

(** X6: once a port is held the service never goes back to holding none,
    and no request is answered with the no-port error of its guard any
    more. *)
Theorem port_never_lost (data_str : PortData -> string)
    (rs : list App.Request) (w : PortWorker) :
  exists w',
    App.run data_str rs (Some w) = Some w' /\
    forall r, fst (App.handle data_str r (Some w'))
              <> error 404 (App.no_state_message r).
Proof.
  assert (Hrun : exists w', App.run data_str rs (Some w) = Some w').
  { revert w. unfold App.run. induction rs as [|r rs IH]; intro w; simpl.
    - now exists w.
    - destruct (handle_keeps_port data_str r w) as [w1 E]. rewrite E. apply IH. }
  destruct Hrun as [w' E]. exists w'. split; [exact E|].
  intro r. destruct r as [[msg|w1]| |name|u| | | |now]; simpl;
    try (unfold ok, error; discriminate).
  unfold App.get_berth. cbv zeta. destruct (find _ _); simpl;
    unfold ok, error; discriminate.
Qed.

(** ** The summary of a generation *)

Lemma filter_all_iff {A : Type} (p : A -> bool) (l : list A) :
  List.length (filter p l) = List.length l <-> Forall (fun x => p x = true) l.
Proof.
  induction l as [|x l IH]; simpl.
  - split; [constructor | reflexivity].
  - pose proof (filter_length_le p l) as Hle.
    destruct (p x) eqn:E; simpl.
    + split.
      * intro H. constructor; [exact E|]. apply IH. lia.
      * intro H. inversion H; subst. f_equal. now apply IH.
    + split.
      * intro H. lia.
      * intro H. inversion H; subst. congruence.
Qed.

(** X7: a successful generation makes the new worker the held one
    whatever was held before, and answers 200 with one summary per berth;
    in each summary [active_radars] lies between 0 and [total_radars],
    which is the number of radars of the berth, and the two are equal
    exactly when every radar of the berth is ACTIVE. *)
Theorem get_port_summary (w : PortWorker) (st : App.State) :
  snd (App.get_port (App.Built w) st) = Some w /\
  status (fst (App.get_port (App.Built w) st)) = 200 /\
  field "total_berths" (body (fst (App.get_port (App.Built w) st)))
    = Some (JInt (Z.of_nat (List.length (berths (data w))))) /\
  field "berths" (body (fst (App.get_port (App.Built w) st)))
    = Some (JArr (map Views.berth_summary_json (berths (data w)))) /\
  forall berth, In berth (berths (data w)) ->
    exists a,
      field "active_radars" (Views.berth_summary_json berth) = Some (JInt a) /\
      field "total_radars" (Views.berth_summary_json berth)
        = Some (JInt (Z.of_nat (List.length (radars berth)))) /\
      0 <= a <= Z.of_nat (List.length (radars berth)) /\
      (a = Z.of_nat (List.length (radars berth)) <-> Port.all_active (radars berth)).
Proof.
  split; [reflexivity | split; [reflexivity | split; [reflexivity | split;
    [reflexivity|]]]].
  intros berth _.
  set (p := fun r => status_eqb (distance_status r) ACTIVE).
  exists (Z.of_nat (List.length (filter p (radars berth)))).
  split; [reflexivity | split; [reflexivity | split]].
  - pose proof (filter_length_le p (radars berth)). lia.
  - rewrite Nat2Z.inj_iff, filter_all_iff. unfold Port.all_active.
    rewrite !Forall_forall. split; intros H r Hr; specialize (H r Hr);
      unfold p in *; destruct (distance_status r); simpl in *; congruence.
Qed.

(** ** The berth listing *)

(** X8: the berth listing answers 200 with the port name and an array
    from which the whole held port is read back, and this array is the
    one the download carries. *)
Theorem berth_listing_round_trip (w : PortWorker) :
  status (fst (App.get_berths (Some w))) = 200 /\
  Reader.port_of (body (fst (App.get_berths (Some w)))) = Some (data w) /\
  forall now,
    field "berths" (body (fst (App.download_port_data now (Some w))))
    = field "berths" (body (fst (App.get_berths (Some w)))).
Proof.
  split; [reflexivity | split; [|reflexivity]].
  destruct w as [[n bs]]. unfold Reader.port_of. simpl.
  rewrite (traverse_map _ _ bs berth_of_json). reflexivity.
Qed.

(** X9: for every bollard the analysis view lists the same hooks, in the
    same order and with the same fields, as the berth listing does. *)
Theorem analysis_hooks_as_listed (berth : BerthData) (bollard : BollardData) :
  field "hooks" (Views.bollard_info_json (Priority.bollard_info berth bollard))
  = field "hooks" (Views.bollard_json bollard).
Proof.
  simpl. do 2 f_equal. rewrite hooks_data_pairs, map_map.
  apply map_ext. intro h. unfold Views.hook_json. simpl.
  now rewrite tension_copy.
Qed.

(** ** Statistics *)

Lemma count_if_length cond (hd : list (HookData * option Q)) :
  Analysis.count_if cond hd = Z.of_nat (List.length (filter cond hd)).
Proof. unfold Analysis.count_if. apply py_sum_Z_ones. Qed.

Lemma sum_of_lengths {A B : Type} (f : A -> Z) (g : A -> list B) (l : list A) :
  Forall (fun x => f x = Z.of_nat (List.length (g x))) l ->
  py_sum_Z (map f l) = Z.of_nat (List.length (flat_map g l)).
Proof.
  induction 1 as [|x l Hx Hl IH]; simpl.
  - reflexivity.
  - rewrite py_sum_Z_cons, IH, Hx, length_app. lia.
Qed.

Lemma collect_length (d : PortData) :
  List.length (Priority.collect d) = List.length (Port.all_bollards d).
Proof.
  unfold Priority.collect, Port.all_bollards.
  induction (berths d) as [|berth bs IH]; simpl.
  - reflexivity.
  - now rewrite !length_app, length_map, IH.
Qed.

Lemma prioritized_length (d : PortData) :
  List.length (Priority.prioritized d) = List.length (Port.all_bollards d).
Proof.
  rewrite <- collect_length. symmetry. apply Permutation_length.
  apply sort_reverse_perm; [exact key_lt_asym | exact key_lt_trans].
Qed.

(** X10: the analysis view reports as [total_bollards] the number of
    bollards the port really has, which is also the length of its
    [bollards] array, whatever the denormalized count fields say. *)
Theorem analysis_total_bollards (w : PortWorker) :
  field "total_bollards" (body (fst (App.get_tension_analysis (Some w))))
    = Some (JInt (Z.of_nat (List.length (Port.all_bollards (data w))))) /\
  exists items,
    field "bollards" (body (fst (App.get_tension_analysis (Some w))))
      = Some (JArr items) /\
    List.length items = List.length (Port.all_bollards (data w)).
Proof.
  split.
  - simpl. unfold Views.jlen. now rewrite prioritized_length.
  - exists (map Views.bollard_info_json (Priority.prioritized (data w))).
    split; [reflexivity|]. now rewrite length_map, prioritized_length.
Qed.

(** X11: the statistics add up the denormalized count fields of the
    berths; when those fields agree with the nested lists, [total_bollards]
    and [total_hooks] are the numbers of bollards and hooks the port
    really has, and the statistics and the analysis view report the same
    [total_bollards]. *)
Theorem statistics_totals_consistent (w : PortWorker) :
  Forall Port.counts_consistent (berths (data w)) ->
  Statistics.total_bollards (data w)
    = Z.of_nat (List.length (Port.all_bollards (data w))) /\
  Statistics.total_hooks (data w)
    = Z.of_nat (List.length (Shape.all_hooks (data w))) /\
  field "total_bollards" (body (fst (App.get_statistics (Some w))))
    = field "total_bollards" (body (fst (App.get_tension_analysis (Some w)))).
Proof.
  intro H.
  assert (Hb : Statistics.total_bollards (data w)
               = Z.of_nat (List.length (Port.all_bollards (data w)))).
  { unfold Statistics.total_bollards, Port.all_bollards. apply sum_of_lengths.
    revert H. apply Forall_impl. intros berth [Hc _]. exact Hc. }
  split; [exact Hb | split].
  - unfold Statistics.total_hooks, Shape.all_hooks. apply sum_of_lengths.
    revert H. apply Forall_impl. intros berth [_ Hc]. exact Hc.
  - simpl. unfold Views.jlen. now rewrite prioritized_length, Hb.
Qed.

(** X11 on the second sample port. *)
Lemma statistics_totals_consistent_witness :
  Statistics.total_bollards Quay.port = 2 /\
  Statistics.total_hooks Quay.port = 3 /\
  field "total_bollards" (body (fst (App.get_statistics (Some (mkWorker Quay.port)))))
    = field "total_bollards"
        (body (fst (App.get_tension_analysis (Some (mkWorker Quay.port))))).
Proof.
  apply (statistics_totals_consistent (mkWorker Quay.port)).
  repeat constructor.
Defined.

(** X12: in the statistics [active_hooks] and [faulted_hooks] lie between
    0 and the number of hooks the port really has, and [ships_docked]
    between 0 and the number of berths. *)
Theorem statistics_bounds (d : PortData) :
  0 <= Statistics.active_hooks (Statistics.tally d)
    <= Z.of_nat (List.length (Shape.all_hooks d)) /\
  0 <= Statistics.faulted_hooks (Statistics.tally d)
    <= Z.of_nat (List.length (Shape.all_hooks d)) /\
  0 <= Statistics.ships_docked d <= Z.of_nat (List.length (berths d)).
Proof.
  rewrite tally_all_hooks.
  destruct (visit_hooks_counters (Shape.all_hooks d) Statistics.zero) as (Ha & Hf & _).
  rewrite Ha, Hf. unfold Severity.count_where, Statistics.ships_docked. simpl.
  rewrite py_sum_Z_ones.
  pose proof (filter_length_le attached_line (Shape.all_hooks d)).
  pose proof (filter_length_le faulted (Shape.all_hooks d)).
  pose proof (filter_length_le
                (fun berth => match ship berth with Some _ => true | None => false end)
                (berths d)).
  lia.
Qed.

(** ** The severity counts of a bollard *)

Lemma one_bucket_per_hook (h : HookData) :
  Severity.unit_of (Analysis.is_critical (h, tension h))
  + Severity.unit_of (Analysis.is_dangerous (h, tension h))
  + Severity.unit_of (Analysis.is_attention (h, tension h))
  + Severity.unit_of (Analysis.is_faulted (h, tension h)) <= 1.
Proof.
  unfold Analysis.is_critical, Analysis.is_dangerous, Analysis.is_attention,
    Analysis.is_faulted.
  destruct (faulted h); simpl; [lia|].
  destruct (tension h) as [t|]; simpl; [|lia].
  destruct (Qle_bool 86 t) eqn:E1, (Qle_bool 70 t) eqn:E2, (Qle_bool t 85) eqn:E3,
    (Qle_bool 40 t) eqn:E4, (Qle_bool t 69) eqn:E5; simpl; try lia; exfalso;
    repeat match goal with
           | H : Qle_bool _ _ = true |- _ => apply Qle_bool_iff in H
           end; lra.
Qed.

(** X13: no hook is counted twice: the critical, dangerous, attention and
    faulted counts of a bollard are non-negative and together do not
    exceed the number of its hooks. *)
Theorem severity_counts_disjoint (hs : list HookData) :
  0 <= Analysis.critical_count hs /\
  0 <= Analysis.dangerous_count hs /\
  0 <= Analysis.attention_count hs /\
  0 <= Analysis.faulted_count hs /\
  Analysis.critical_count hs + Analysis.dangerous_count hs
  + Analysis.attention_count hs + Analysis.faulted_count hs
  <= Z.of_nat (List.length hs).
Proof.
  unfold Analysis.critical_count, Analysis.dangerous_count,
    Analysis.attention_count, Analysis.faulted_count.
  repeat (split; [rewrite count_if_length; lia|]).
  rewrite hooks_data_pairs.
  induction hs as [|h hs IH].
  - unfold Analysis.count_if, py_sum_Z. simpl. lia.
  - cbn [map]. rewrite !count_if_cons. pose proof (one_bucket_per_hook h).
    cbn [List.length]. lia.
Qed.

(** ** Ties and strict order in the sorted list *)

Lemma filter_rev {A : Type} (p : A -> bool) (l : list A) :
  filter p (rev l) = rev (filter p l).
Proof.
  induction l as [|x l IH]; simpl.
  - reflexivity.
  - rewrite filter_app, IH. simpl. destruct (p x); simpl.
    + reflexivity.
    + apply app_nil_r.
Qed.

Lemma filter_none {A : Type} (p : A -> bool) (l : list A) :
  Forall (fun x => p x = false) l -> filter p l = [].
Proof.
  induction 1 as [|x l Hx Hl IH]; simpl.
  - reflexivity.
  - now rewrite Hx.
Qed.

Section Stability.
Context {A K : Type}.
Variable key : A -> K.
Variable lt : K -> K -> bool.
Hypothesis lt_asym : forall a b, lt a b = true -> lt b a = false.
Hypothesis lt_trans : forall a b c, lt a b = true -> lt b c = true -> lt a c = true.
Hypothesis lt_between : forall a b c, lt a c = true -> lt a b = true \/ lt b c = true.

Variable k : K.

Lemma above_no_tie (x z : A) :
  lt (key x) (key z) = true -> (Port.ties key lt k) x = true -> (Port.ties key lt k) z = false.
Proof.
  unfold Port.ties. intros Hxz Hx.
  apply andb_true_iff in Hx. destruct Hx as [_ Hxk]. apply negb_true_iff in Hxk.
  destruct (lt_between _ k _ Hxz) as [H|H]; [congruence|].
  now rewrite H.
Qed.

Lemma filter_insert (x : A) (l : list A) :
  StronglySorted (PySort.ascending key lt) l ->
  filter (Port.ties key lt k) (PySort.insert key lt x l)
  = (filter (Port.ties key lt k) l ++ (if (Port.ties key lt k) x then [x] else []))%list.
Proof.
  induction 1 as [|y l Hs IH Hy]; simpl.
  - reflexivity.
  - destruct (lt (key x) (key y)) eqn:E.
    + destruct ((Port.ties key lt k) x) eqn:Ex.
      * assert (Hnone : filter (Port.ties key lt k) (y :: l) = []).
        { apply filter_none.
          constructor.
          - now rewrite (above_no_tie x y E Ex).
          - rewrite Forall_forall in *. intros z Hz.
            assert (Hxz : lt (key x) (key z) = true).
            { destruct (lt_between _ (key z) _ E) as [H|H]; [exact H|].
              specialize (Hy z Hz). unfold PySort.ascending in Hy. congruence. }
            now rewrite (above_no_tie x z Hxz Ex). }
        cbn [filter]. rewrite Ex. simpl in Hnone. rewrite Hnone. reflexivity.
      * cbn [filter]. rewrite Ex. now rewrite app_nil_r.
    + cbn [filter]. rewrite IH. destruct ((Port.ties key lt k) y); reflexivity.
Qed.

Lemma filter_sort_from (l acc : list A) :
  StronglySorted (PySort.ascending key lt) acc ->
  filter (Port.ties key lt k) (fold_left (fun a x => PySort.insert key lt x a) l acc)
  = (filter (Port.ties key lt k) acc ++ filter (Port.ties key lt k) l)%list.
Proof.
  revert acc. induction l as [|x l IH]; intros acc Hacc; simpl.
  - now rewrite app_nil_r.
  - rewrite IH by (apply insert_sorted; assumption).
    rewrite filter_insert by assumption.
    rewrite <- app_assoc. destruct ((Port.ties key lt k) x); reflexivity.
Qed.

Lemma sort_reverse_stable (l : list A) :
  filter (Port.ties key lt k) (PySort.sort_reverse key lt l) = filter (Port.ties key lt k) l.
Proof.
  unfold PySort.sort_reverse, PySort.sort.
  rewrite filter_rev, filter_sort_from by constructor.
  simpl. rewrite filter_rev. apply rev_involutive.
Qed.

End Stability.

Lemma key_less_between (a b c : Priority.Key) :
  Priority.key_less a c -> Priority.key_less a b \/ Priority.key_less b c.
Proof.
  destruct a as [[c1 f1] t1], b as [[c2 f2] t2], c as [[c3 f3] t3].
  unfold Priority.key_less. intro H.
  destruct (Z.lt_trichotomy c1 c2) as [Hc|[Hc|Hc]]; [left; left; exact Hc | |].
  - destruct (Z.lt_trichotomy c2 c3) as [Hc'|[Hc'|Hc']];
      [right; left; exact Hc' | | exfalso; destruct H as [H|[H _]]; lia].
    destruct (Z.lt_trichotomy f1 f2) as [Hf|[Hf|Hf]];
      [left; right; split; [exact Hc|]; left; exact Hf | |].
    + destruct (Z.lt_trichotomy f2 f3) as [Hf'|[Hf'|Hf']];
        [right; right; split; [exact Hc'|]; left; exact Hf' | |
         exfalso; destruct H as [H|[_ [H|[H _]]]]; lia].
      assert (Ht : (t1 < t3)%Q) by (destruct H as [H|[_ [H|[_ H]]]]; [lia | lia | exact H]).
      destruct (Qlt_le_dec t1 t2) as [Ht'|Ht'].
      * left. right. split; [exact Hc|]. right. split; [exact Hf | exact Ht'].
      * right. right. split; [exact Hc'|]. right. split; [exact Hf'|]. lra.
    + right. right. split; [exact Hc'|]. left.
      destruct H as [H|[_ [H|[H _]]]]; lia.
  - right. left. destruct H as [H|[H _]]; lia.
Qed.

Lemma key_lt_between (a b c : Priority.Key) :
  Priority.key_lt a c = true ->
  Priority.key_lt a b = true \/ Priority.key_lt b c = true.
Proof. rewrite !key_lt_iff. apply key_less_between. Qed.

(** X14: the sort of the analysis view is stable: the bollards whose keys
    tie with a given key stand in the result in the order in which the
    port lists them. *)
Theorem analysis_sort_stable (d : PortData) (k : Priority.Key) :
  filter (Port.ties Priority.sort_key Priority.key_lt k) (Priority.prioritized d)
  = filter (Port.ties Priority.sort_key Priority.key_lt k) (Priority.collect d).
Proof.
  unfold Priority.prioritized.
  apply sort_reverse_stable;
    [exact key_lt_asym | exact key_lt_trans | exact key_lt_between].
Qed.

(** X15: a bollard whose key is strictly greater than another's, in
    particular one with strictly more critical hooks, stands strictly
    earlier in the result of the analysis view. *)
Theorem greater_key_listed_first (d : PortData) (i j : nat)
    (x y : Priority.BollardInfo) :
  nth_error (Priority.prioritized d) i = Some x ->
  nth_error (Priority.prioritized d) j = Some y ->
  Priority.key_less (Priority.sort_key y) (Priority.sort_key x) \/
  Priority.info_critical_count y < Priority.info_critical_count x ->
  (i < j)%nat.
Proof.
  intros Hi Hj Hless.
  assert (Hlt : Priority.key_lt (Priority.sort_key y) (Priority.sort_key x) = true).
  { apply key_lt_iff. destruct Hless as [H|H]; [exact H|].
    unfold Priority.sort_key, Priority.key_less. left. exact H. }
  pose proof (sort_reverse_sorted Priority.sort_key Priority.key_lt
                key_lt_asym key_lt_trans (Priority.collect d)) as Hs.
  fold (Priority.prioritized d) in Hs.
  destruct (Nat.lt_trichotomy i j) as [H|[H|H]]; [exact H | |].
  - subst j. rewrite Hi in Hj. injection Hj as <-.
    rewrite (key_lt_asym _ _ Hlt) in Hlt. discriminate.
  - pose proof (sorted_pairs _ _ Hs j i y x H Hj Hi) as Hge.
    cbv beta in Hge. congruence.
Qed.

(** X15 on the second sample port, where the critical bollard is listed
    second by the port and first by the analysis. *)
Lemma greater_key_listed_first_witness :
  map Priority.info_bollard_name (Priority.collect Quay.port)
    = ["Bollard 1"; "Bollard 2"] /\
  nth_error (Priority.prioritized Quay.port) 0
    = Some (Priority.bollard_info Quay.berth Quay.strained) /\
  nth_error (Priority.prioritized Quay.port) 1
    = Some (Priority.bollard_info Quay.berth Quay.calm) /\
  (0 < 1)%nat.
Proof.
  split; [reflexivity|].
  split; [vm_compute; reflexivity|].
  split; [vm_compute; reflexivity|].
  apply (greater_key_listed_first Quay.port 0 1
           (Priority.bollard_info Quay.berth Quay.strained)
           (Priority.bollard_info Quay.berth Quay.calm)).
  - vm_compute. reflexivity.
  - vm_compute. reflexivity.
  - right. vm_compute. reflexivity.
Defined.

(** ** The analysis view against the statistics *)

Lemma py_sum_Z_perm (l l' : list Z) :
  Permutation l l' -> py_sum_Z l = py_sum_Z l'.
Proof.
  induction 1 as [|x l l' Hp IH|x y l|l l' l'' H1 IH1 H2 IH2].
  - reflexivity.
  - rewrite !py_sum_Z_cons. lia.
  - rewrite !py_sum_Z_cons. lia.
  - congruence.
Qed.

Lemma count_where_app (p : HookData -> bool) (a b : list HookData) :
  Severity.count_where p (a ++ b)%list
  = Severity.count_where p a + Severity.count_where p b.
Proof.
  unfold Severity.count_where. rewrite filter_app, length_app. lia.
Qed.

Lemma faulted_count_where (hs : list HookData) :
  Analysis.faulted_count hs = Severity.count_where faulted hs.
Proof.
  unfold Analysis.faulted_count, Severity.count_where.
  rewrite count_if_length, hooks_data_pairs. do 2 f_equal.
  induction hs as [|h hs IH]; simpl.
  - reflexivity.
  - destruct (faulted h); simpl; now rewrite IH.
Qed.

Lemma collect_faulted (d : PortData) :
  py_sum_Z (map Priority.info_faulted_count (Priority.collect d))
  = Severity.count_where faulted (Shape.all_hooks d).
Proof.
  unfold Priority.collect, Shape.all_hooks.
  induction (berths d) as [|berth bs IH]; simpl.
  - reflexivity.
  - rewrite map_app, py_sum_Z_app, count_where_app, IH. f_equal.
    clear IH. induction (bollards berth) as [|b l IHl]; simpl.
    + reflexivity.
    + rewrite py_sum_Z_cons, count_where_app, IHl, faulted_count_where.
      reflexivity.
Qed.

(** X16: the faulted counts that the analysis view reports per bollard
    add up to the [faulted_hooks] of the statistics. *)
Theorem analysis_faulted_adds_up (d : PortData) :
  py_sum_Z (map Priority.info_faulted_count (Priority.prioritized d))
  = Statistics.faulted_hooks (Statistics.tally d).
Proof.
  rewrite tally_all_hooks.
  destruct (visit_hooks_counters (Shape.all_hooks d) Statistics.zero) as (_ & Hf & _).
  rewrite Hf. simpl. rewrite <- collect_faulted.
  apply py_sum_Z_perm. apply Permutation_map. apply Permutation_sym.
  apply sort_reverse_perm; [exact key_lt_asym | exact key_lt_trans].
Qed.
